(** * google-redirector: the WebSocket tunnelling gateway of [main.go]

    A shallow embedding of [main.go]: the pure helpers of Go's standard
    library that the program calls ([strings.ToLower], [strings.Contains],
    [http.Header.Get]/[Set], [url.URL.Hostname]/[Port]), the request handler
    of [main], [isWebSocketRequest], [handleWebSocket],
    [dialBackendWebSocket], [writeSwitchingProtocols] and [pipe].

    Strings are Go strings, that is byte sequences ([string], a list of
    [ascii]).  Effects are a trace of events; what the network and the HTTP
    server answer is read from an environment record. *)

From Stdlib Require Import ZArith Ascii String List Bool Lia DecimalString.
From stdpp Require Import base option strings gmap.

Import ListNotations.
Local Open Scope string_scope.
Local Open Scope list_scope.
Local Open Scope Z_scope.

(** ** Go's [strings] package *)

Module Strings.

(** A byte below [utf8.RuneSelf] (0x80). *)
Definition isASCIIbyte (c : ascii) : bool := (N_of_ascii c <? 128)%N.

Definition isUpper (c : ascii) : bool :=
  ((65 <=? N_of_ascii c) && (N_of_ascii c <=? 90))%N.

Definition isLower (c : ascii) : bool :=
  ((97 <=? N_of_ascii c) && (N_of_ascii c <=? 122))%N.

(** [c += 'a' - 'A'] on an upper-case letter, every other byte kept. *)
Definition lowerByte (c : ascii) : ascii :=
  if isUpper c then ascii_of_N (N_of_ascii c + 32) else c.

Definition upperByte (c : ascii) : ascii :=
  if isLower c then ascii_of_N (N_of_ascii c - 32) else c.

Fixpoint mapBytes (f : ascii -> ascii) (s : string) : string :=
  match s with
  | EmptyString => EmptyString
  | String c s' => String (f c) (mapBytes f s')
  end.

Fixpoint allBytes (p : ascii -> bool) (s : string) : bool :=
  match s with
  | EmptyString => true
  | String c s' => p c && allBytes p s'
  end.

Definition isASCII (s : string) : bool := allBytes isASCIIbyte s.

(** [strings.HasPrefix s p]. *)
Fixpoint HasPrefix (s p : string) {struct p} : bool :=
  match p, s with
  | EmptyString, _ => true
  | String _ _, EmptyString => false
  | String b p', String a s' => Ascii.eqb a b && HasPrefix s' p'
  end.

(** [strings.Contains s substr]: [substr] occurs at some offset of [s]. *)
Fixpoint Contains (s substr : string) : bool :=
  HasPrefix s substr ||
  match s with
  | EmptyString => false
  | String _ s' => Contains s' substr
  end.

Section ToLower.
(** [strings.ToLower] lowers the bytes of an all-ASCII string itself and
    hands every other string to [strings.Map(unicode.ToLower, s)], whose
    case tables are Go's and are a parameter here. *)
Variable unicodeToLower : string -> string.

Definition ToLower (s : string) : string :=
  if isASCII s then mapBytes lowerByte s else unicodeToLower s.
End ToLower.

End Strings.

(** ** Go's [net/textproto], [net/http] and [net/url] data *)

Module Http.

(** [validHeaderFieldByte]: the token characters of RFC 7230. *)
Definition validHeaderFieldByte (c : ascii) : bool :=
  Strings.isUpper c || Strings.isLower c ||
  ((48 <=? N_of_ascii c) && (N_of_ascii c <=? 57))%N ||
  Strings.Contains "!#$%&'*+-.^_`|~" (String c EmptyString).

(** The rewriting loop of [canonicalMIMEHeaderKey]: first letter and every
    letter after a dash in upper case, the others in lower case. *)
Fixpoint canonicalize (upper : bool) (s : string) : string :=
  match s with
  | EmptyString => EmptyString
  | String c s' =>
      let c' := if upper then Strings.upperByte c else Strings.lowerByte c in
      String c' (canonicalize (Ascii.eqb c' "-") s')
  end.

(** [textproto.CanonicalMIMEHeaderKey]: a key with a byte that is no token
    character (a space included) is returned unchanged. *)
Definition CanonicalMIMEHeaderKey (s : string) : string :=
  if Strings.allBytes validHeaderFieldByte s then canonicalize true s else s.

(** [http.Header] is [map[string][]string]. *)
Abbreviation Header := (gmap string (list string)).

(** [Header.Get]: the first value stored under the canonical key, and the
    empty string when there is none. *)
Definition Get (h : Header) (key : string) : string :=
  match h !! CanonicalMIMEHeaderKey key with
  | Some (v :: _) => v
  | _ => EmptyString
  end.

(** [Header.Set]: the values under the canonical key become [[value]]. *)
Definition Set_ (h : Header) (key value : string) : Header :=
  <[CanonicalMIMEHeaderKey key := [value]]> h.

(** The fields of [url.URL] that the program reads or writes. *)
Record URL := mkURL {
  Scheme : string;
  UHost : string;
  Path : string;
  RawQuery : string
}.

(** The part of [s] before its last [c] and the part after it
    ([strings.LastIndexByte] and the two slices taken at it). *)
Fixpoint cutLast (c : ascii) (s : string) : option (string * string) :=
  match s with
  | EmptyString => None
  | String a s' =>
      match cutLast c s' with
      | Some (h, t) => Some (String a h, t)
      | None => if Ascii.eqb a c then Some (EmptyString, s') else None
      end
  end.

Definition isDigit (c : ascii) : bool :=
  ((48 <=? N_of_ascii c) && (N_of_ascii c <=? 57))%N.

(** [host[1 : len(host)-1]] when [host] starts with "[" and ends with "]". *)
Fixpoint dropLastBracket (s : string) : option string :=
  match s with
  | EmptyString => None
  | String a EmptyString => if Ascii.eqb a "]" then Some EmptyString else None
  | String a s' => option_map (String a) (dropLastBracket s')
  end.

Definition stripBrackets (host : string) : string :=
  match host with
  | String a s' =>
      if Ascii.eqb a "[" then
        match dropLastBracket s' with Some inner => inner | None => host end
      else host
  | EmptyString => host
  end.

(** [splitHostPort] of net/url: the part after the last colon is a port
    when it is made of digits only (it may be empty). *)
Definition splitHostPort (hostPort : string) : string * string :=
  let '(host, port) :=
    match cutLast ":" hostPort with
    | Some (h, p) =>
        if Strings.allBytes isDigit p then (h, p) else (hostPort, EmptyString)
    | None => (hostPort, EmptyString)
    end in
  (stripBrackets host, port).

Definition Hostname (u : URL) : string := fst (splitHostPort (UHost u)).
Definition Port (u : URL) : string := snd (splitHostPort (UHost u)).

(** The fields of [http.Request] that the program reads or writes. *)
Record Request := mkRequest {
  Method : string;
  RURL : URL;
  RHeader : Header;
  RHost : string
}.

(** The fields of [http.Response] that the program reads. *)
Record Response := mkResponse {
  StatusCode : Z;
  RespHeader : Header
}.

Definition StatusSwitchingProtocols : Z := 101.
Definition StatusInternalServerError : Z := 500.
Definition StatusBadGateway : Z := 502.

End Http.

Import Http.

(** ** Errors, connections and the events of a run *)

(** Go [error] values: those made by [net], [crypto/tls] and [net/http]
    (known by their message only) and the two that [main.go] makes with
    [fmt.Errorf]. *)
Inductive error :=
| LibError (msg : string)
| Expected101 (status : Z)
| MissingAccept.

(** [%d] of [fmt]. *)
Definition formatInt (n : Z) : string := NilZero.string_of_int (Z.to_int n).

(** [err.Error()]. *)
Definition Error (e : error) : string :=
  match e with
  | LibError msg => msg
  | Expected101 status => "expected 101, got " +:+ formatInt status
  | MissingAccept => "missing Sec-WebSocket-Accept from backend"
  end.

Inductive Leg := ClientLeg | BackendLeg.

(** A [net.Conn] value: the leg it carries and what its dynamic type offers,
    which is what the type tests of [pipe] look at. *)
Record Conn := mkConn {
  leg : Leg;
  isTLS : bool;          (* the value is a [*tls.Conn] *)
  hasCloseWrite : bool   (* the value has a [CloseWrite() error] method *)
}.

(** The [*net.TCPConn] that [net.DialTimeout("tcp", ...)] returns. *)
Definition tcpBackend : Conn := mkConn BackendLeg false true.
(** [tls.Client(conn, ...)] over it. *)
Definition tlsBackend : Conn := mkConn BackendLeg true true.

Inductive logArg :=
| AStr (s : string)
| AInt (n : Z)
| AErr (e : error)
| AURL (u : URL).

(** [time.Duration] counts nanoseconds. *)
Definition Second : Z := 1000000000.

Inductive event :=
| ELog (format : string) (args : list logArg)
| EDialTimeout (network address : string) (timeout : Z) (res : option error)
| ETLSHandshake (serverName : string) (insecureSkipVerify : bool)
                (res : option error)
| EWriteRequest (c : Conn) (req : Request) (res : option error)
| EReadResponse (c : Conn) (res : error + Response)
| EHttpError (msg : string) (code : Z)
| EWriteHeader (code : Z)
| EWriteBody (body : string)
| EServeHTTP (r : Request)
| EHijack (res : option error)
| EConnWrite (c : Conn) (bytes : string)
| ESetWriteDeadline (c : Conn) (fromNow : Z)
| ECloseWrite (c : Conn)
| EClose (c : Conn)
| ECopy (dst src : Conn) (n : Z) (err : option error)
| EGoPipe (dst src : Conn) (dir : string)
| EWait.

(** What the network and the HTTP server answer during one request. *)
Record Env := mkEnv {
  dialResult : string -> option error;
  tlsResult : option error;
  writeRequestResult : option error;
  readResponseResult : error + Response;
  isHijacker : bool;              (* [w.(http.Hijacker)] succeeds *)
  hijackResult : option error;
  clientTLS : bool;
  clientCloseWrite : bool;
  clientWriteResult : option error;
  copyResult : Conn -> Conn -> Z * option error
}.

(** The configuration read once by [main]. *)
Record Config := mkConfig {
  verificationHeader : string;
  target : URL
}.

(** ** A computation is its result and the events it emitted *)

Definition M (A : Type) : Type := A * list event.

Definition ret {A} (a : A) : M A := (a, []).

Definition bind {A B} (m : M A) (k : A -> M B) : M B :=
  let '(a, t1) := m in let '(b, t2) := k a in (b, t1 ++ t2).

Definition emit (e : event) : M unit := (tt, [e]).

Definition trace {A} (m : M A) : list event := snd m.
Definition result {A} (m : M A) : A := fst m.

Notation "'let!' x ':=' c 'in' k" := (bind c (fun x => k))
  (at level 10, x pattern, c at level 100, k at level 200).
Notation "c ';;;' k" := (bind c (fun _ => k))
  (at level 100, k at level 200, right associativity).

(** [defer d] at the top of [body]: [d] runs when [body] is left. *)
Definition defer {A} (d : M unit) (body : M A) : M A :=
  let! a := body in d ;;; ret a.

Definition log (format : string) (args : list logArg) : M unit :=
  emit (ELog format args).

(** The two bytes CR LF that Go writes as "\r\n". *)
Definition CRLF : string :=
  String (ascii_of_N 13) (String (ascii_of_N 10) EmptyString).

Definition nonEmpty (s : string) : bool := negb (String.eqb s EmptyString).

(** ** The program *)

Section Program.

Variable unicodeToLower : string -> string.
Variable env : Env.

Definition isWebSocketRequest (r : Request) : bool :=
  String.eqb (Strings.ToLower unicodeToLower (Get (RHeader r) "Upgrade"))
             "websocket" &&
  Strings.Contains
    (Strings.ToLower unicodeToLower (Get (RHeader r) "Connection"))
    "upgrade".

(** The address handed to [net.DialTimeout]. *)
Definition dialAddress (u : URL) : string :=
  let host := UHost u in
  if negb (Strings.Contains host ":") then
    if String.eqb (Scheme u) "wss" then host +:+ ":443" else host +:+ ":80"
  else host.

(** Sets [key] to the value of the original request when that is not
    empty. *)
Definition forwardIfPresent (r : Request) (key : string) (h : Header)
  : Header :=
  let v := Get (RHeader r) key in
  if nonEmpty v then Set_ h key v else h.

(** The synthetic upgrade request sent to the backend. *)
Definition upgradeRequest (u : URL) (r : Request) : Request :=
  let h : Header := ∅ in
  let h := Set_ h "Connection" "Upgrade" in
  let h := Set_ h "Upgrade" "websocket" in
  let h := Set_ h "Sec-WebSocket-Version"
                (Get (RHeader r) "Sec-WebSocket-Version") in
  let h := Set_ h "Sec-WebSocket-Key" (Get (RHeader r) "Sec-WebSocket-Key") in
  let h := forwardIfPresent r "Sec-WebSocket-Protocol" h in
  let h := forwardIfPresent r "Sec-WebSocket-Extensions" h in
  let h := forwardIfPresent r "Authorization" h in
  mkRequest "GET" u h (UHost u).

Definition dialBackendWebSocket (u : URL) (r : Request)
  : M (error + Conn * Response) :=
  let host := dialAddress u in
  emit (EDialTimeout "tcp" host (10 * Second) (dialResult env host)) ;;;
  match dialResult env host with
  | Some err => ret (inl err)
  | None =>
      let conn := tcpBackend in
      let! wrapped :=
        if String.eqb (Scheme u) "wss" then
          emit (ETLSHandshake (Hostname u) true (tlsResult env)) ;;;
          match tlsResult env with
          | Some err => emit (EClose conn) ;;; ret (inl err)
          | None => ret (inr tlsBackend)
          end
        else ret (inr conn) in
      match wrapped with
      | inl err => ret (inl err)
      | inr conn =>
          let req := upgradeRequest u r in
          emit (EWriteRequest conn req (writeRequestResult env)) ;;;
          match writeRequestResult env with
          | Some err => emit (EClose conn) ;;; ret (inl err)
          | None =>
              emit (EReadResponse conn (readResponseResult env)) ;;;
              match readResponseResult env with
              | inl err => emit (EClose conn) ;;; ret (inl err)
              | inr resp =>
                  if negb (StatusCode resp =? StatusSwitchingProtocols) then
                    emit (EClose conn) ;;;
                    ret (inl (Expected101 (StatusCode resp)))
                  else ret (inr (conn, resp))
              end
          end
      end
  end.

(** The text that [writeSwitchingProtocols] builds, or its error. *)
Definition switchingProtocols (clientReq : Request) (backendResp : Response)
  : error + string :=
  let accept := Get (RespHeader backendResp) "Sec-WebSocket-Accept" in
  if String.eqb accept "" then inl MissingAccept
  else
    let resp := "HTTP/1.1 101 Switching Protocols" +:+ CRLF +:+
                "Upgrade: websocket" +:+ CRLF +:+
                "Connection: Upgrade" +:+ CRLF +:+
                "Sec-WebSocket-Accept: " +:+ accept +:+ CRLF in
    let proto := Get (RHeader clientReq) "Sec-WebSocket-Protocol" in
    let resp :=
      if nonEmpty proto then
        let backendProto :=
          Get (RespHeader backendResp) "Sec-WebSocket-Protocol" in
        if nonEmpty backendProto && Strings.Contains proto backendProto then
          resp +:+ ("Sec-WebSocket-Protocol: " +:+ backendProto +:+ CRLF)
        else resp
      else resp in
    inr (resp +:+ CRLF).

Definition writeSwitchingProtocols (clientConn : Conn) (clientReq : Request)
  (backendResp : Response) : M (option error) :=
  match switchingProtocols clientReq backendResp with
  | inl err => ret (Some err)
  | inr resp =>
      emit (EConnWrite clientConn resp) ;;;
      ret (clientWriteResult env)
  end.

(** [[]byte{0x88, 0x02, 0x03, 0xe8}]. *)
Definition closeFrame : string :=
  String (ascii_of_N 0x88) (String (ascii_of_N 0x02)
    (String (ascii_of_N 0x03) (String (ascii_of_N 0xe8) EmptyString))).

Definition pipe (dst src : Conn) (dir : string) : M unit :=
  let '(n, err) := copyResult env dst src in
  emit (ECopy dst src n err) ;;;
  match err with
  | Some e =>
      if negb (Strings.Contains (Error e) "use of closed network connection")
      then log "pipe %s error: %v (copied %d bytes)" [AStr dir; AErr e; AInt n]
      else log "pipe %s finished (copied %d bytes)" [AStr dir; AInt n]
  | None => log "pipe %s finished (copied %d bytes)" [AStr dir; AInt n]
  end ;;;
  emit (ESetWriteDeadline dst (2 * Second)) ;;;
  emit (EConnWrite dst closeFrame) ;;;
  if isTLS dst then emit (EClose dst)
  else
    (if hasCloseWrite dst then emit (ECloseWrite dst) else ret tt) ;;;
    emit (EClose dst).

(** [http.Error(w, msg, code)]. *)
Definition httpError (msg : string) (code : Z) : M unit :=
  emit (EHttpError msg code).

(** [hijacker.Hijack()]: the client connection, of whatever dynamic type
    the server gives it. *)
Definition Hijack : M (error + Conn) :=
  emit (EHijack (hijackResult env)) ;;;
  match hijackResult env with
  | Some err => ret (inl err)
  | None => ret (inr (mkConn ClientLeg (clientTLS env) (clientCloseWrite env)))
  end.

(** The [backendURL] that [handleWebSocket] builds. *)
Definition backendURL (r : Request) (target : URL) : URL :=
  mkURL (if String.eqb (Scheme target) "https" then "wss" else "ws")
        (UHost target) (Path (RURL r)) (RawQuery (RURL r)).

Definition handleWebSocket (r : Request) (target : URL) : M unit :=
  log "WebSocket upgrade request: %s %s"
      [AStr (Method r); AStr (Path (RURL r))] ;;;
  let backendURL := backendURL r target in
  log "Connecting to backend WebSocket: %s" [AURL backendURL] ;;;
  let! dialled := dialBackendWebSocket backendURL r in
  match dialled with
  | inl err =>
      log "Backend WebSocket dial failed: %v" [AErr err] ;;;
      httpError "Failed to connect to backend" StatusBadGateway
  | inr (backendConn, backendResp) =>
      defer (emit (EClose backendConn)) (
        if negb (isHijacker env) then
          log "Hijacking not supported" [] ;;;
          httpError "Hijacking not supported" StatusInternalServerError
        else
          let! hijacked := Hijack in
          match hijacked with
          | inl err => log "Hijack failed: %v" [AErr err]
          | inr clientConn =>
              defer (emit (EClose clientConn)) (
                let! werr :=
                  writeSwitchingProtocols clientConn r backendResp in
                match werr with
                | Some err =>
                    log "Failed to send upgrade response: %v" [AErr err]
                | None =>
                    log "WebSocket connection established, proxying data..."
                        [] ;;;
                    emit (EGoPipe backendConn clientConn "client→backend") ;;;
                    emit (EGoPipe clientConn backendConn "backend→client") ;;;
                    emit EWait
                end)
          end)
  end.

(** The function that [main] registers for "/". *)
Definition handler (cfg : Config) (r : Request) : M unit :=
  if nonEmpty (verificationHeader cfg) &&
     String.eqb (Get (RHeader r) (verificationHeader cfg)) ""
  then
    emit (EWriteHeader StatusBadGateway) ;;;
    emit (EWriteBody "Bad Gateway")
  else if isWebSocketRequest r then handleWebSocket r (target cfg)
  else emit (EServeHTTP r).

(** The runs of the two goroutines that a trace starts. *)
Definition goroutines (t : list event) : list (list event) :=
  flat_map (fun e => match e with
                     | EGoPipe dst src dir => [trace (pipe dst src dir)]
                     | _ => []
                     end) t.

End Program.

(** ** What the specification calls things *)

(** The place of a byte in the alphabet when it is one of the letters A to Z
    or a to z. *)
Definition letterIndex (c : ascii) : option N :=
  let n := N_of_ascii c in
  if ((65 <=? n) && (n <=? 90))%N then Some (n - 65)%N
  else if ((97 <=? n) && (n <=? 122))%N then Some (n - 97)%N
  else None.

(** Two bytes that are the same letter in either case, or the same byte. *)
Definition sameLetter (a b : ascii) : bool :=
  match letterIndex a, letterIndex b with
  | Some i, Some j => (i =? j)%N
  | None, None => Ascii.eqb a b
  | _, _ => false
  end.

(** Two byte strings of the same length that agree byte by byte up to the
    case of letters. *)
Fixpoint equalIgnoringCase (s t : string) : bool :=
  match s, t with
  | EmptyString, EmptyString => true
  | String a s', String b t' => sameLetter a b && equalIgnoringCase s' t'
  | _, _ => false
  end.

Section SpecWords.

(** Go's lowering of a string that has a byte outside ASCII. *)
Variable unicodeToLower : string -> string.

(** "[s] case-insensitively equals [t]", for a [t] in lower case: an ASCII
    [s] has the bytes of [t] up to the case of letters; for any other [s],
    its Unicode lowering is [t]. *)
Definition equalsIgnoringCase (s t : string) : Prop :=
  if Strings.isASCII s then equalIgnoringCase s t = true
  else unicodeToLower s = t.

(** "[s] case-insensitively contains [t]", for a [t] in lower case: an ASCII
    [s] has a run of bytes that is [t] up to the case of letters; for any
    other [s], its Unicode lowering has [t] as a run of bytes. *)
Definition containsIgnoringCase (s t : string) : Prop :=
  if Strings.isASCII s
  then exists pre mid post,
         s = pre +:+ mid +:+ post /\ equalIgnoringCase mid t = true
  else exists pre post, unicodeToLower s = pre +:+ t +:+ post.

End SpecWords.


(** Two byte strings of the same length whose bytes agree up to the case of
    the letters A to Z. *)
Fixpoint sameLetters (s t : string) : bool :=
  match s, t with
  | EmptyString, EmptyString => true
  | String a s', String b t' =>
      Ascii.eqb (Strings.lowerByte a) (Strings.lowerByte b) && sameLetters s' t'
  | _, _ => false
  end.

(** The header [key] is absent from [h], or present with an empty first
    value. *)
Definition absentOrEmpty (h : Header) (key : string) : Prop :=
  h !! CanonicalMIMEHeaderKey key = None \/
  h !! CanonicalMIMEHeaderKey key = Some [] \/
  exists vs, h !! CanonicalMIMEHeaderKey key = Some (EmptyString :: vs).

(** The states of the tunnel that the design notes name. *)
Inductive Phase := Idle | UpstreamEstablished | Hijacked | Relaying | Closed.

(** The state after one more event: the backend's 101 establishes the
    upstream leg, a successful hijack is the hijack wherever it happens,
    starting a pipe starts the relay and closing a connection ends the
    tunnel. *)
Definition phaseStep (p : Phase) (e : event) : Phase :=
  match e with
  | EReadResponse _ (inr resp) =>
      match p with
      | Idle =>
          if StatusCode resp =? StatusSwitchingProtocols
          then UpstreamEstablished else Idle
      | _ => p
      end
  | EHijack None => Hijacked
  | EGoPipe _ _ _ => match p with Hijacked => Relaying | _ => p end
  | EClose _ => Closed
  | _ => p
  end.

Definition phaseOf (t : list event) : Phase := fold_left phaseStep t Idle.

(** An event that the client of the inbound request can observe: a response
    written through the [http.ResponseWriter], the hijack of its connection,
    bytes written to it or its closing. *)
Definition clientVisible (e : event) : bool :=
  match e with
  | EHttpError _ _ | EWriteHeader _ | EWriteBody _ | EServeHTTP _
  | EHijack _ => true
  | EConnWrite c _ | ECloseWrite c | EClose c | ESetWriteDeadline c _ =>
      match leg c with ClientLeg => true | BackendLeg => false end
  | ECopy dst src _ _ =>
      match leg dst, leg src with
      | BackendLeg, BackendLeg => false
      | _, _ => true
      end
  | _ => false
  end.

(** The upstream handshake went through: the dial, the TLS handshake of an
    https target, the write of the upgrade request, and the read of an
    answer whose status is 101. *)
Definition handshakeSucceeds (env : Env) (r : Request) (target : URL)
  (resp : Response) : Prop :=
  dialResult env (dialAddress (backendURL r target)) = None /\
  (Scheme target = "https" -> tlsResult env = None) /\
  writeRequestResult env = None /\
  readResponseResult env = inr resp /\
  StatusCode resp = 101.

(** The connection to the backend once the handshake is done. *)
Definition backendConnOf (target : URL) : Conn :=
  if String.eqb (Scheme target) "https" then tlsBackend else tcpBackend.

(** The events of a handshake that went through, up to the read of the
    backend's answer. *)
Definition handshakeEvents (r : Request) (target : URL) (resp : Response)
  : list event :=
  [ELog "WebSocket upgrade request: %s %s"
        [AStr (Method r); AStr (Path (RURL r))];
   ELog "Connecting to backend WebSocket: %s" [AURL (backendURL r target)];
   EDialTimeout "tcp" (dialAddress (backendURL r target)) 10000000000 None] ++
  (if String.eqb (Scheme target) "https"
   then [ETLSHandshake (Hostname (backendURL r target)) true None] else []) ++
  [EWriteRequest (backendConnOf target)
                 (upgradeRequest (backendURL r target) r) None;
   EReadResponse (backendConnOf target) (inr resp)].

Definition isHijack (e : event) : bool :=
  match e with EHijack _ => true | _ => false end.

Definition isRelay (e : event) : bool :=
  match e with EGoPipe _ _ _ | ECopy _ _ _ _ | EWait => true | _ => false end.

(** The client connection that a successful hijack hands over. *)
Definition clientConnOf (env : Env) : Conn :=
  mkConn ClientLeg (clientTLS env) (clientCloseWrite env).

(** The header block up to the accept token. *)
Definition fixedLines (accept : string) : string :=
  "HTTP/1.1 101 Switching Protocols" +:+ CRLF +:+
  "Upgrade: websocket" +:+ CRLF +:+
  "Connection: Upgrade" +:+ CRLF +:+
  "Sec-WebSocket-Accept: " +:+ accept +:+ CRLF.

(** ** Concrete requests and environments *)

Definition idLower (s : string) : string := s.

Definition headersOf (l : list (string * string)) : Header :=
  fold_left (fun h kv => Set_ h (fst kv) (snd kv)) l ∅.

Definition sampleKey : string := "dGhlIHNhbXBsZSBub25jZQ==".
Definition sampleAccept : string := "s3pPLMBiTxaQ9kYGzzhZRbK+xOo=".

Definition upgradeReq : Request :=
  mkRequest "GET" (mkURL "" "" "/chat" "room=1")
    (headersOf [("Upgrade", "websocket"); ("Connection", "keep-alive, Upgrade");
                ("Sec-WebSocket-Version", "13");
                ("Sec-WebSocket-Key", sampleKey);
                ("Sec-WebSocket-Protocol", "chat, superchat")])
    "gateway.example".

Definition plainReq : Request :=
  mkRequest "GET" (mkURL "" "" "/index.html" "") (headersOf []) "gateway.example".

Definition backendOK (proto : list (string * string)) : Response :=
  mkResponse 101 (headersOf (("Sec-WebSocket-Accept", sampleAccept) :: proto)).

(** Everything succeeds and the backend answers [resp]. *)
Definition envWith (resp : Response) : Env :=
  mkEnv (fun _ => None) None None (inr resp) true None false true None
        (fun _ _ => (0, None)).

Definition plainTarget : URL := mkURL "http" "backend.example" "" "".
Definition tlsTarget : URL := mkURL "https" "backend.example" "" "".

(** ** Sub-protocol lists *)

(** [strings.Split(s, ",")]. *)
Fixpoint splitComma (s : string) : list string :=
  match s with
  | EmptyString => [EmptyString]
  | String c s' =>
      if Ascii.eqb c "," then EmptyString :: splitComma s'
      else match splitComma s' with
           | x :: xs => String c x :: xs
           | [] => [String c EmptyString]
           end
  end.

Definition isBlank (c : ascii) : bool :=
  Ascii.eqb c " " || Ascii.eqb c (ascii_of_N 9).

Fixpoint trimLeft (s : string) : string :=
  match s with
  | String c s' => if isBlank c then trimLeft s' else s
  | EmptyString => EmptyString
  end.

Fixpoint trimRight (s : string) : string :=
  match s with
  | EmptyString => EmptyString
  | String c s' =>
      match trimRight s' with
      | EmptyString => if isBlank c then EmptyString else String c EmptyString
      | t => String c t
      end
  end.

(** The sub-protocols that a [Sec-WebSocket-Protocol] request value lists:
    its comma-separated elements without the blanks around them. *)
Definition listedProtocols (s : string) : list string :=
  map (fun x => trimRight (trimLeft x)) (splitComma s).

Definition inList (x : string) (l : list string) : bool :=
  existsb (String.eqb x) l.

(** ** Start-up *)

(** [os.Getenv] over the process environment: the empty string for a
    variable that is not set. *)
Definition Getenv (environ : gmap string string) (key : string) : string :=
  match environ !! key with
  | Some value => value
  | None => EmptyString
  end.

Definition getEnv (environ : gmap string string) (key defaultValue : string)
  : string :=
  let value := Getenv environ key in
  if nonEmpty value then value else defaultValue.

(** The configuration that [main] reads; [url.Parse] is Go's and is a
    parameter.  An error stands for the [log.Fatalf] that ends the
    process. *)
Definition mainConfig (parseURL : string -> error + URL)
  (environ : gmap string string) : error + Config :=
  let backendURL := getEnv environ "BACKEND_URL"
                           "https://your-backend-server.com" in
  let verificationHeader := getEnv environ "VERIFICATION_HEADER" "" in
  match parseURL backendURL with
  | inl err => inl err
  | inr target => inr (mkConfig verificationHeader target)
  end.

(** The [proxy.ErrorHandler] that [main] installs. *)
Definition errorHandler (err : error) : M unit :=
  log "Proxy error: %v" [AErr err] ;;;
  emit (EWriteHeader StatusBadGateway) ;;;
  emit (EWriteBody "Bad Gateway").

(** ** Counting events *)

Definition countIf (p : event -> bool) (t : list event) : nat :=
  length (List.filter p t).

Definition isDial (e : event) : bool :=
  match e with EDialTimeout _ _ _ _ => true | _ => false end.

Definition isTLSHandshake (e : event) : bool :=
  match e with ETLSHandshake _ _ _ => true | _ => false end.

Definition isClose (e : event) : bool :=
  match e with EClose _ => true | _ => false end.

Definition isHttpError (e : event) : bool :=
  match e with EHttpError _ _ => true | _ => false end.

Definition isHijackOK (e : event) : bool :=
  match e with EHijack None => true | _ => false end.

(** The connection that an event of [pipe] acts on, when it acts on one
    alone. *)
Definition connOf (e : event) : option Conn :=
  match e with
  | EConnWrite c _ | ESetWriteDeadline c _ | ECloseWrite c | EClose c => Some c
  | _ => None
  end.

Definition isError {A} (x : error + A) : bool :=
  match x with inl _ => true | inr _ => false end.

(** The header names that [dialBackendWebSocket] sets on the request it
    sends, in canonical form. *)
Definition forwardedKeys : list string :=
  map CanonicalMIMEHeaderKey
      ["Connection"; "Upgrade"; "Sec-WebSocket-Version"; "Sec-WebSocket-Key";
       "Sec-WebSocket-Protocol"; "Sec-WebSocket-Extensions"; "Authorization"].

(** ** Strings *)

Lemma HasPrefix_spec (p s : string) :
  Strings.HasPrefix s p = true <-> exists post, s = p +:+ post.
Proof.
  revert s. induction p as [|b p IH]; intros s; simpl.
  - split; [intros _; exists s; reflexivity | reflexivity].
  - destruct s as [|a s]; simpl.
    + split; [discriminate | intros [post H]; discriminate].
    + rewrite andb_true_iff, IH. split.
      * intros [Hab [post ->]]. apply Ascii.eqb_eq in Hab. subst.
        exists post. reflexivity.
      * intros [post H]. injection H as -> ->. split.
        -- apply Ascii.eqb_refl.
        -- exists post. reflexivity.
Qed.

Lemma Contains_spec (s sub : string) :
  Strings.Contains s sub = true <-> exists pre post, s = pre +:+ sub +:+ post.
Proof.
  induction s as [|a s IH]; simpl.
  - rewrite orb_false_r, HasPrefix_spec. split.
    + intros [post H]. exists EmptyString, post. exact H.
    + intros [pre [post H]]. destruct pre; [|discriminate].
      exists post. exact H.
  - rewrite orb_true_iff, HasPrefix_spec, IH. split.
    + intros [[post H] | [pre [post H]]].
      * exists EmptyString, post. exact H.
      * exists (String a pre), post. simpl. rewrite H. reflexivity.
    + intros [pre [post H]]. destruct pre as [|b pre]; simpl in H.
      * left. exists post. exact H.
      * right. injection H as _ H. exists pre, post. exact H.
Qed.

Lemma ToLower_literal (f : string -> string) :
  Strings.ToLower f "websocket" = "websocket" /\
  Strings.ToLower f "upgrade" = "upgrade".
Proof. split; reflexivity. Qed.

Lemma Get_absentOrEmpty (h : Header) (key : string) :
  absentOrEmpty h key <-> Get h key = EmptyString.
Proof.
  unfold absentOrEmpty, Get.
  destruct (h !! CanonicalMIMEHeaderKey key) as [[|v vs]|] eqn:E.
  - split; [reflexivity | intros _; right; left; reflexivity].
  - split.
    + intros [H | [H | [ws H]]]; try discriminate. congruence.
    + intros ->. right; right. exists vs. reflexivity.
  - split; [reflexivity | intros _; left; reflexivity].
Qed.

Lemma mapBytes_lower_eq (s t : string) :
  Strings.mapBytes Strings.lowerByte s = Strings.mapBytes Strings.lowerByte t
  <-> sameLetters s t = true.
Proof.
  revert t. induction s as [|a s IH]; intros [|b t]; simpl;
    try (split; [discriminate | discriminate]); [tauto |].
  rewrite andb_true_iff, Ascii.eqb_eq, <- IH. split.
  - intros H. injection H as Hc Hs. auto.
  - intros [-> ->]. reflexivity.
Qed.

(** ** The upgrade detector *)









(** ** The access gate *)

(** C10: with a verification header configured, a request in whose header
    map that name is absent, has no value or has an empty first value is
    answered 502 "Bad Gateway" and nothing else happens, and a request in
    whose header map the name has a non-empty first value, whatever it is,
    goes on to upgrade detection and then to the tunnel or the proxy; the
    value is looked at for emptiness only. *)
Theorem handler_gate (unicodeToLower : string -> string) (env : Env)
  (cfg : Config) (r : Request) :
  verificationHeader cfg <> EmptyString ->
  (absentOrEmpty (RHeader r) (verificationHeader cfg) ->
   handler unicodeToLower env cfg r =
   (tt, [EWriteHeader 502; EWriteBody "Bad Gateway"])) /\
  (forall value more,
     RHeader r !! CanonicalMIMEHeaderKey (verificationHeader cfg) =
       Some (value :: more) ->
     value <> EmptyString ->
     handler unicodeToLower env cfg r =
     if isWebSocketRequest unicodeToLower r
     then handleWebSocket env r (target cfg)
     else (tt, [EServeHTTP r])).
Proof.
  intros Hcfg. unfold handler, nonEmpty.
  apply String.eqb_neq in Hcfg. rewrite Hcfg. simpl. split.
  - intros H. apply Get_absentOrEmpty in H. rewrite H. reflexivity.
  - intros value more Hlook Hv. unfold Get. rewrite Hlook.
    apply String.eqb_neq in Hv. rewrite Hv. reflexivity.
Qed.

Lemma handler_gate_witness :
  handler idLower (envWith (backendOK [])) (mkConfig "x-gate-token" plainTarget)
          upgradeReq =
  (tt, [EWriteHeader 502; EWriteBody "Bad Gateway"]) /\
  handler idLower (envWith (backendOK [])) (mkConfig "x-gate-token" plainTarget)
          (mkRequest "GET" (mkURL "" "" "/index.html" "")
             (headersOf [("X-Gate-Token", "anything")]) "gateway.example") =
  (tt, [EServeHTTP
          (mkRequest "GET" (mkURL "" "" "/index.html" "")
             (headersOf [("X-Gate-Token", "anything")]) "gateway.example")]).
Proof.
  split.
  - apply (handler_gate idLower (envWith (backendOK []))
                        (mkConfig "x-gate-token" plainTarget) upgradeReq).
    + discriminate.
    + left. vm_compute. reflexivity.
  - apply (proj2 (handler_gate idLower (envWith (backendOK []))
                    (mkConfig "x-gate-token" plainTarget)
                    (mkRequest "GET" (mkURL "" "" "/index.html" "")
                       (headersOf [("X-Gate-Token", "anything")])
                       "gateway.example")
                    ltac:(discriminate))
                 "anything" []).
    + vm_compute. reflexivity.
    + discriminate.
Defined.

(** ** The response synthesizer *)

Lemma append_assoc' (a b c : string) : (a +:+ b) +:+ c = a +:+ b +:+ c.
Proof.
  induction a as [|x a IH]; [reflexivity |].
  change (String x ((a +:+ b) +:+ c) = String x (a +:+ b +:+ c)).
  f_equal. exact IH.
Qed.

Lemma append_empty_r (a : string) : a +:+ EmptyString = a.
Proof.
  induction a as [|x a IH]; [reflexivity |].
  change (String x (a +:+ EmptyString) = String x a). f_equal. exact IH.
Qed.

Lemma switchingProtocols_shape (clientReq : Request) (backendResp : Response) :
  Get (RespHeader backendResp) "Sec-WebSocket-Accept" <> EmptyString ->
  switchingProtocols clientReq backendResp =
  inr (fixedLines (Get (RespHeader backendResp) "Sec-WebSocket-Accept") +:+
       (if nonEmpty (Get (RHeader clientReq) "Sec-WebSocket-Protocol") &&
           nonEmpty (Get (RespHeader backendResp) "Sec-WebSocket-Protocol") &&
           Strings.Contains (Get (RHeader clientReq) "Sec-WebSocket-Protocol")
             (Get (RespHeader backendResp) "Sec-WebSocket-Protocol")
        then "Sec-WebSocket-Protocol: " +:+
             Get (RespHeader backendResp) "Sec-WebSocket-Protocol" +:+ CRLF
        else EmptyString) +:+ CRLF).
Proof.
  intros Hacc. unfold switchingProtocols, fixedLines.
  apply String.eqb_neq in Hacc. rewrite Hacc.
  destruct (nonEmpty (Get (RHeader clientReq) "Sec-WebSocket-Protocol")); simpl.
  - destruct (nonEmpty (Get (RespHeader backendResp) "Sec-WebSocket-Protocol")
              && Strings.Contains _ _); simpl.
    + rewrite !append_assoc'. reflexivity.
    + reflexivity.
  - reflexivity.
Qed.

Lemma CRLF_bytes : map N_of_ascii (list_ascii_of_string CRLF) = [13; 10]%N.
Proof. reflexivity. Qed.

(** C6: after a handshake that gave an accept token, the bytes written to
    the client connection are the status line, [Upgrade: websocket],
    [Connection: Upgrade], [Sec-WebSocket-Accept: <token>], at most one
    [Sec-WebSocket-Protocol] line carrying the backend's value, and an empty
    line, each ended by the two bytes 13 10 (CR LF), and nothing else is
    written. *)
Theorem writeSwitchingProtocols_bytes (env : Env) (clientConn : Conn)
  (clientReq : Request) (backendResp : Response) :
  Get (RespHeader backendResp) "Sec-WebSocket-Accept" <> EmptyString ->
  exists protocolLine crlf,
    map N_of_ascii (list_ascii_of_string crlf) = [13; 10]%N /\
    (protocolLine = EmptyString \/
     protocolLine =
       "Sec-WebSocket-Protocol: " +:+
       Get (RespHeader backendResp) "Sec-WebSocket-Protocol" +:+ crlf) /\
    trace (writeSwitchingProtocols env clientConn clientReq backendResp) =
    [EConnWrite clientConn
       ("HTTP/1.1 101 Switching Protocols" +:+ crlf +:+
        "Upgrade: websocket" +:+ crlf +:+
        "Connection: Upgrade" +:+ crlf +:+
        "Sec-WebSocket-Accept: " +:+
          Get (RespHeader backendResp) "Sec-WebSocket-Accept" +:+ crlf +:+
        protocolLine +:+ crlf)].
Proof.
  intros Hacc. unfold writeSwitchingProtocols.
  rewrite (switchingProtocols_shape clientReq backendResp Hacc).
  match goal with |- context [if ?b then ?x else _] =>
    exists (if b then x else EmptyString), CRLF; destruct b end.
  - split; [exact CRLF_bytes |]. split; [right; reflexivity |].
    unfold fixedLines, trace. simpl. rewrite ?append_assoc'. reflexivity.
  - split; [exact CRLF_bytes |]. split; [left; reflexivity |].
    unfold fixedLines, trace. simpl. rewrite ?append_assoc'. reflexivity.
Qed.

Lemma writeSwitchingProtocols_bytes_witness :
  exists protocolLine crlf,
    map N_of_ascii (list_ascii_of_string crlf) = [13; 10]%N /\
    (protocolLine = EmptyString \/
     protocolLine = "Sec-WebSocket-Protocol: " +:+ "chat" +:+ crlf) /\
    trace (writeSwitchingProtocols
             (envWith (backendOK [("Sec-WebSocket-Protocol", "chat")]))
             (mkConn ClientLeg false true) upgradeReq
             (backendOK [("Sec-WebSocket-Protocol", "chat")])) =
    [EConnWrite (mkConn ClientLeg false true)
       ("HTTP/1.1 101 Switching Protocols" +:+ crlf +:+
        "Upgrade: websocket" +:+ crlf +:+
        "Connection: Upgrade" +:+ crlf +:+
        "Sec-WebSocket-Accept: " +:+ sampleAccept +:+ crlf +:+
        protocolLine +:+ crlf)].
Proof.
  apply (writeSwitchingProtocols_bytes
           (envWith (backendOK [("Sec-WebSocket-Protocol", "chat")]))
           (mkConn ClientLeg false true) upgradeReq
           (backendOK [("Sec-WebSocket-Protocol", "chat")])).
  vm_compute. discriminate.
Defined.

(** *** Sub-protocol echo *)

Lemma splitComma_substring (s x : string) :
  In x (splitComma s) -> exists pre post, s = pre +:+ x +:+ post.
Proof.
  revert x. induction s as [|c s IH]; intros x; simpl.
  - intros [<- | []]. exists EmptyString, EmptyString. reflexivity.
  - destruct (Ascii.eqb c ",") eqn:Ec.
    + intros [<- | Hin].
      * exists EmptyString, (String c s). reflexivity.
      * destruct (IH x Hin) as [pre [post ->]].
        exists (String c pre), post. reflexivity.
    + destruct (splitComma s) as [|y ys] eqn:Es.
      * intros [<- | []]. exists EmptyString, s. reflexivity.
      * intros [<- | Hin].
        -- destruct (IH y (or_introl eq_refl)) as [pre [post H]].
           destruct pre as [|p pre].
           ++ exists EmptyString, post. change (String c s = String c (y +:+ post)).
              f_equal. exact H.
           ++ (* [y] is the first element: it starts at offset 0 *)
              exists EmptyString.
              assert (Hfirst : exists post', s = y +:+ post').
              { clear -Es. revert y ys Es.
                induction s as [|d s IHs]; intros y ys Es; simpl in Es.
                - injection Es as <- <-. exists EmptyString. reflexivity.
                - destruct (Ascii.eqb d ",").
                  + injection Es as <- <-. exists (String d s). reflexivity.
                  + destruct (splitComma s) as [|z zs] eqn:Ez.
                    * injection Es as <- <-. exists s. reflexivity.
                    * injection Es as <- <-.
                      destruct (IHs z zs eq_refl) as [post' ->].
                      exists post'. reflexivity. }
              destruct Hfirst as [post' ->]. exists post'. reflexivity.
        -- destruct (IH x (or_intror Hin)) as [pre [post ->]].
           exists (String c pre), post. reflexivity.
Qed.

Lemma trimLeft_suffix (s : string) : exists pre, s = pre +:+ trimLeft s.
Proof.
  induction s as [|c s [pre IH]]; simpl.
  - exists EmptyString. reflexivity.
  - destruct (isBlank c).
    + exists (String c pre). change (String c s = String c (pre +:+ trimLeft s)).
      f_equal. exact IH.
    + exists EmptyString. reflexivity.
Qed.

Lemma trimRight_prefix (s : string) : exists post, s = trimRight s +:+ post.
Proof.
  induction s as [|c s [post IH]]; simpl.
  - exists EmptyString. reflexivity.
  - destruct (trimRight s) as [|d t] eqn:Et.
    + destruct (isBlank c).
      * exists (String c s). reflexivity.
      * exists s. reflexivity.
    + exists post. change (String c s = String c (String d t +:+ post)).
      f_equal. exact IH.
Qed.

Lemma listed_is_substring (s x : string) :
  In x (listedProtocols s) -> Strings.Contains s x = true.
Proof.
  unfold listedProtocols. rewrite in_map_iff. intros [y [<- Hy]].
  apply Contains_spec.
  destruct (splitComma_substring s y Hy) as [pre [post ->]].
  destruct (trimLeft_suffix y) as [l Hl].
  destruct (trimRight_prefix (trimLeft y)) as [r Hr].
  exists (pre +:+ l), (r +:+ post).
  rewrite Hl at 1. rewrite Hr at 1. rewrite !append_assoc'. reflexivity.
Qed.

(** X17: The half of the negotiation rule that the substring test does meet: a
    backend value that the client listed is echoed. *)
Lemma listed_protocol_echoed (clientReq : Request) (backendResp : Response) :
  Get (RespHeader backendResp) "Sec-WebSocket-Accept" <> EmptyString ->
  Get (RespHeader backendResp) "Sec-WebSocket-Protocol" <> EmptyString ->
  In (Get (RespHeader backendResp) "Sec-WebSocket-Protocol")
     (listedProtocols (Get (RHeader clientReq) "Sec-WebSocket-Protocol")) ->
  switchingProtocols clientReq backendResp =
  inr (fixedLines (Get (RespHeader backendResp) "Sec-WebSocket-Accept") +:+
       ("Sec-WebSocket-Protocol: " +:+
        Get (RespHeader backendResp) "Sec-WebSocket-Protocol" +:+ CRLF) +:+
       CRLF).
Proof.
  intros Hacc Hbp Hin. rewrite (switchingProtocols_shape _ _ Hacc).
  pose proof (listed_is_substring _ _ Hin) as Hc. rewrite Hc.
  unfold nonEmpty. apply String.eqb_neq in Hbp. rewrite Hbp.
  destruct (Get (RHeader clientReq) "Sec-WebSocket-Protocol") eqn:Ep.
  - destruct (Get (RespHeader backendResp) "Sec-WebSocket-Protocol");
      [discriminate Hbp | discriminate Hc].
  - reflexivity.
Qed.

(** The header is never written for a client that listed nothing or a
    backend that chose nothing. *)
Lemma protocol_omitted (clientReq : Request) (backendResp : Response) :
  Get (RespHeader backendResp) "Sec-WebSocket-Accept" <> EmptyString ->
  Get (RHeader clientReq) "Sec-WebSocket-Protocol" = EmptyString \/
  Get (RespHeader backendResp) "Sec-WebSocket-Protocol" = EmptyString \/
  Strings.Contains (Get (RHeader clientReq) "Sec-WebSocket-Protocol")
    (Get (RespHeader backendResp) "Sec-WebSocket-Protocol") = false ->
  switchingProtocols clientReq backendResp =
  inr (fixedLines (Get (RespHeader backendResp) "Sec-WebSocket-Accept") +:+
       CRLF).
Proof.
  intros Hacc H. rewrite (switchingProtocols_shape _ _ Hacc).
  destruct H as [-> | [-> | ->]]; simpl;
    rewrite ?andb_false_r; reflexivity.
Qed.

(** C4, at the request that lists "chat, superchat" and the backend answer
    "super": "super" is none of the listed sub-protocols, and the response
    written to the client carries [Sec-WebSocket-Protocol: super]. *)
Theorem substring_protocol_echoed :
  inList "super" (listedProtocols
                    (Get (RHeader upgradeReq) "Sec-WebSocket-Protocol")) = false /\
  switchingProtocols upgradeReq
    (backendOK [("Sec-WebSocket-Protocol", "super")]) =
  inr (fixedLines sampleAccept +:+
       ("Sec-WebSocket-Protocol: " +:+ "super" +:+ CRLF) +:+ CRLF).
Proof. split; vm_compute; reflexivity. Qed.

(** ** The relay's shutdown sequence *)

Lemma closeFrame_bytes :
  map N_of_ascii (list_ascii_of_string closeFrame) = [0x88; 0x02; 0x03; 0xE8]%N.
Proof. reflexivity. Qed.

(** C7: whatever [io.Copy] returns, [pipe] then logs once, sets a write
    deadline two seconds ahead on the destination, writes the four bytes
    0x88 0x02 0x03 0xE8 to it, and closes it: a [*tls.Conn] by its [Close]
    alone, any other connection by [CloseWrite] first when it has that
    method and then [Close]. *)
Theorem pipe_shutdown (env : Env) (dst src : Conn) (dir : string) :
  exists format args,
    trace (pipe env dst src dir) =
    [ECopy dst src (fst (copyResult env dst src)) (snd (copyResult env dst src));
     ELog format args;
     ESetWriteDeadline dst 2000000000;
     EConnWrite dst closeFrame] ++
    (if isTLS dst then [EClose dst]
     else if hasCloseWrite dst then [ECloseWrite dst; EClose dst]
          else [EClose dst]) /\
    map N_of_ascii (list_ascii_of_string closeFrame) =
    [0x88; 0x02; 0x03; 0xE8]%N.
Proof.
  unfold pipe. destruct (copyResult env dst src) as [n [e|]]; simpl.
  - destruct (negb (Strings.Contains (Error e) _));
      eexists _, _; (split; [| exact closeFrame_bytes]);
      destruct (isTLS dst), (hasCloseWrite dst); reflexivity.
  - eexists _, _; (split; [| exact closeFrame_bytes]);
      destruct (isTLS dst), (hasCloseWrite dst); reflexivity.
Qed.

(** ** The synthetic upgrade request *)

Lemma Get_Set_eq (h : Header) (k v : string) : Get (Set_ h k v) k = v.
Proof. unfold Get, Set_. rewrite lookup_insert_eq. reflexivity. Qed.

Lemma Get_Set_ne (h : Header) (k k' v : string) :
  CanonicalMIMEHeaderKey k <> CanonicalMIMEHeaderKey k' ->
  Get (Set_ h k v) k' = Get h k'.
Proof. intros Hne. unfold Get, Set_. rewrite lookup_insert_ne; auto. Qed.

Lemma Get_forwardIfPresent_eq (r : Request) (k : string) (h : Header) :
  Get h k = EmptyString ->
  Get (forwardIfPresent r k h) k = Get (RHeader r) k.
Proof.
  intros Hh. unfold forwardIfPresent, nonEmpty.
  destruct (String.eqb (Get (RHeader r) k) "") eqn:E; simpl.
  - apply String.eqb_eq in E. congruence.
  - apply Get_Set_eq.
Qed.

Lemma Get_forwardIfPresent_ne (r : Request) (k k' : string) (h : Header) :
  CanonicalMIMEHeaderKey k <> CanonicalMIMEHeaderKey k' ->
  Get (forwardIfPresent r k h) k' = Get h k'.
Proof.
  intros Hne. unfold forwardIfPresent.
  destruct (nonEmpty _); [apply Get_Set_ne; exact Hne | reflexivity].
Qed.

Ltac keys_differ := vm_compute; discriminate.

(** X14: The request sent to the backend: a GET for the given URL with the two
    upgrade headers, the client's version and key, and the client's
    sub-protocols, extensions and credentials as far as it sent any. *)
Lemma upgradeRequest_spec (u : URL) (r : Request) :
  let req := upgradeRequest u r in
  Method req = "GET" /\ RURL req = u /\ RHost req = UHost u /\
  Get (RHeader req) "Connection" = "Upgrade" /\
  Get (RHeader req) "Upgrade" = "websocket" /\
  Get (RHeader req) "Sec-WebSocket-Version" =
    Get (RHeader r) "Sec-WebSocket-Version" /\
  Get (RHeader req) "Sec-WebSocket-Key" = Get (RHeader r) "Sec-WebSocket-Key" /\
  Get (RHeader req) "Sec-WebSocket-Protocol" =
    Get (RHeader r) "Sec-WebSocket-Protocol" /\
  Get (RHeader req) "Sec-WebSocket-Extensions" =
    Get (RHeader r) "Sec-WebSocket-Extensions" /\
  Get (RHeader req) "Authorization" = Get (RHeader r) "Authorization".
Proof.
  cbv zeta. unfold upgradeRequest. cbn [Method RURL RHost RHeader].
  repeat split.
  all: repeat first
    [ rewrite Get_forwardIfPresent_ne by keys_differ
    | rewrite Get_forwardIfPresent_eq
    | rewrite Get_Set_ne by keys_differ
    | rewrite Get_Set_eq
    | reflexivity ].
Qed.

(** X15: A header that the client did not send is not in the request sent to the
    backend. *)
Lemma upgradeRequest_optional_absent (u : URL) (r : Request) (k : string) :
  k = "Sec-WebSocket-Protocol" \/ k = "Sec-WebSocket-Extensions" \/
  k = "Authorization" ->
  Get (RHeader r) k = EmptyString ->
  RHeader (upgradeRequest u r) !! CanonicalMIMEHeaderKey k = None.
Proof.
  intros Hk Hr. unfold upgradeRequest. cbn [RHeader].
  unfold forwardIfPresent, nonEmpty.
  destruct Hk as [-> | [-> | ->]]; rewrite Hr; simpl;
    repeat match goal with
    | |- context [if ?b then _ else _] => destruct b
    end;
    unfold Set_;
    repeat (rewrite lookup_insert_ne by keys_differ);
    apply lookup_empty.
Qed.

Lemma dialAddress_default (u : URL) :
  Strings.Contains (UHost u) ":" = false ->
  dialAddress u =
  UHost u +:+ (if String.eqb (Scheme u) "wss" then ":443" else ":80").
Proof.
  intros H. unfold dialAddress. rewrite H. simpl.
  destruct (String.eqb (Scheme u) "wss"); reflexivity.
Qed.

(** C8, at the backend [http://[::1]]: the target names no port, and the
    address handed to the dialler is "[::1]", without the port 80. *)
Theorem bracketed_host_gets_no_port :
  Port (mkURL "ws" "[::1]" "/chat" "room=1") = EmptyString /\
  Hostname (mkURL "ws" "[::1]" "/chat" "room=1") = "::1" /\
  dialAddress (mkURL "ws" "[::1]" "/chat" "room=1") = "[::1]" /\
  trace (dialBackendWebSocket
           (mkEnv (fun a => if String.eqb a "[::1]:80" then None
                            else Some (LibError "missing port in address"))
                  None None (inr (backendOK [])) true None false true None
                  (fun _ _ => (0, None)))
           (mkURL "ws" "[::1]" "/chat" "room=1") upgradeReq) =
  [EDialTimeout "tcp" "[::1]" 10000000000
                (Some (LibError "missing port in address"))].
Proof. repeat split; vm_compute; reflexivity. Qed.

(** ** The order of the handshake and the hijack *)

Lemma handshake_scheme (r : Request) (target : URL) :
  String.eqb (Scheme (backendURL r target)) "wss" =
  String.eqb (Scheme target) "https".
Proof.
  unfold backendURL. cbn [Scheme].
  destruct (String.eqb (Scheme target) "https"); reflexivity.
Qed.

(** [dialBackendWebSocket] after a handshake that went through. *)
Lemma dial_succeeds (env : Env) (r : Request) (target : URL) (resp : Response) :
  handshakeSucceeds env r target resp ->
  dialBackendWebSocket env (backendURL r target) r =
  (inr (backendConnOf target, resp),
   skipn 2 (handshakeEvents r target resp)).
Proof.
  intros (Hd & Ht & Hw & Hr & Hs).
  unfold dialBackendWebSocket, handshakeEvents, backendConnOf.
  rewrite Hd, handshake_scheme.
  destruct (String.eqb (Scheme target) "https") eqn:E.
  - apply String.eqb_eq in E. rewrite (Ht E), Hw, Hr, Hs. reflexivity.
  - rewrite Hw, Hr, Hs. reflexivity.
Qed.

Lemma split_at_head {A} (pre : list A) (e x : A) (post l : list A) :
  pre ++ e :: post = x :: l ->
  (pre = [] /\ e = x /\ post = l) \/
  (exists pre', pre = x :: pre' /\ pre' ++ e :: post = l).
Proof.
  destruct pre as [|y pre]; simpl; intros H; injection H as H1 H2; subst.
  - left. auto.
  - right. exists pre. auto.
Qed.

Lemma split_at_nil {A} (pre : list A) (e : A) (post : list A) :
  pre ++ e :: post = [] -> False.
Proof. destruct pre; discriminate. Qed.

(** Every way of cutting a trace that is known event by event. *)
Ltac cut_trace H :=
  repeat match type of H with
  | _ ++ _ :: _ = [] => exfalso; exact (split_at_nil _ _ _ H)
  | _ ++ _ :: _ = _ :: _ =>
      apply split_at_head in H;
      destruct H as [(? & ? & ?) | (? & ? & H)]; subst
  end.

(** One more answer of the environment that the run in [H] waits for. *)
Ltac ask_env H :=
  match type of H with
  | context [match ?x with _ => _ end] =>
      lazymatch x with
      | context [match _ with _ => _ end] => fail
      | _ => destruct x eqn:?
      end
  end; cbn in H.

(** C1: wherever the run of [handleWebSocket] calls [Hijack], and wherever
    its tunnel enters the state Hijacked, the events before that point are
    exactly those of an upstream handshake that went through (the dial, the
    TLS handshake of an https target, the write of the upgrade request and
    the read of a 101 answer), the tunnel is in the state
    UpstreamEstablished, and nothing that the client can observe has
    happened. *)
Theorem hijack_after_handshake (env : Env) (r : Request) (target : URL)
  (pre post : list event) (e : event) :
  trace (handleWebSocket env r target) = pre ++ e :: post ->
  isHijack e = true \/
  (phaseOf pre <> Hijacked /\ phaseOf (pre ++ [e]) = Hijacked) ->
  exists resp,
    handshakeSucceeds env r target resp /\
    pre = handshakeEvents r target resp /\
    phaseOf pre = UpstreamEstablished /\
    forallb (fun x => negb (clientVisible x)) pre = true.
Proof.
  intros H He. symmetry in H.
  unfold handleWebSocket, dialBackendWebSocket, Hijack,
    writeSwitchingProtocols, httpError, log, defer in H.
  rewrite handshake_scheme in H.
  unfold handshakeSucceeds, handshakeEvents, backendConnOf.
  cbn in H.
  repeat ask_env H.
  all: cut_trace H.
  all: try (destruct He as [He | [He1 He2]];
            [discriminate He
            | cbn in He1, He2;
              repeat match goal with
              | E : negb _ = true |- _ => apply negb_true_iff in E
              | E : negb _ = false |- _ => apply negb_false_iff in E
              end;
              try match goal with
              | E : (StatusCode _ =? _) = _ |- _ => rewrite E in *
              end;
              try discriminate He2; try (exfalso; apply He1; reflexivity)]).
  all: clear He;
    match goal with
    | E : negb (StatusCode ?resp =? _) = false |- _ =>
        apply negb_false_iff in E; exists resp;
        assert (Hs : StatusCode resp = 101) by (apply Z.eqb_eq; exact E)
    end;
    repeat split; try reflexivity; try exact Hs;
    try (intros Hhttps; rewrite Hhttps in *; discriminate);
    try (unfold phaseOf; cbn;
         match goal with
         | E : (StatusCode _ =? _) = true |- _ => rewrite E
         end; reflexivity).
Qed.

Lemma hijack_after_handshake_witness :
  exists resp,
    handshakeSucceeds (envWith (backendOK [])) upgradeReq tlsTarget resp /\
    handshakeEvents upgradeReq tlsTarget (backendOK []) =
      handshakeEvents upgradeReq tlsTarget resp /\
    phaseOf (handshakeEvents upgradeReq tlsTarget (backendOK [])) =
      UpstreamEstablished /\
    forallb (fun x => negb (clientVisible x))
            (handshakeEvents upgradeReq tlsTarget (backendOK [])) = true.
Proof.
  apply (hijack_after_handshake (envWith (backendOK [])) upgradeReq tlsTarget
           (handshakeEvents upgradeReq tlsTarget (backendOK []))
           (skipn 7 (trace (handleWebSocket (envWith (backendOK []))
                                            upgradeReq tlsTarget)))
           (EHijack None)).
  - vm_compute. reflexivity.
  - left. reflexivity.
Defined.

(** ** A backend that does not switch protocols *)

Lemma dial_rejected (env : Env) (r : Request) (target : URL) (resp : Response) :
  dialResult env (dialAddress (backendURL r target)) = None ->
  (Scheme target = "https" -> tlsResult env = None) ->
  writeRequestResult env = None ->
  readResponseResult env = inr resp ->
  StatusCode resp <> 101 ->
  dialBackendWebSocket env (backendURL r target) r =
  (inl (Expected101 (StatusCode resp)),
   skipn 2 (handshakeEvents r target resp) ++ [EClose (backendConnOf target)]).
Proof.
  intros Hd Ht Hw Hr Hs. apply Z.eqb_neq in Hs.
  unfold dialBackendWebSocket, handshakeEvents, backendConnOf.
  rewrite Hd, handshake_scheme.
  destruct (String.eqb (Scheme target) "https") eqn:E.
  - apply String.eqb_eq in E. rewrite (Ht E), Hw, Hr.
    unfold StatusSwitchingProtocols. rewrite Hs. reflexivity.
  - rewrite Hw, Hr. unfold StatusSwitchingProtocols. rewrite Hs. reflexivity.
Qed.

(** C2: when the backend answers the upgrade request with a status other
    than 101, [dialBackendWebSocket] closes the backend connection and fails
    with an error that carries the status, and [handleWebSocket] answers the
    caller with [http.Error] 502 and never calls [Hijack]. *)
Theorem rejected_handshake (env : Env) (r : Request) (target : URL)
  (resp : Response) :
  dialResult env (dialAddress (backendURL r target)) = None ->
  (Scheme target = "https" -> tlsResult env = None) ->
  writeRequestResult env = None ->
  readResponseResult env = inr resp ->
  StatusCode resp <> 101 ->
  result (dialBackendWebSocket env (backendURL r target) r) =
    inl (Expected101 (StatusCode resp)) /\
  Error (Expected101 (StatusCode resp)) =
    "expected 101, got " +:+ formatInt (StatusCode resp) /\
  trace (handleWebSocket env r target) =
    handshakeEvents r target resp ++
    [EClose (backendConnOf target);
     ELog "Backend WebSocket dial failed: %v"
          [AErr (Expected101 (StatusCode resp))];
     EHttpError "Failed to connect to backend" 502] /\
  existsb isHijack (trace (handleWebSocket env r target)) = false.
Proof.
  intros Hd Ht Hw Hr Hs.
  pose proof (dial_rejected env r target resp Hd Ht Hw Hr Hs) as Hdial.
  assert (Htrace : trace (handleWebSocket env r target) =
    handshakeEvents r target resp ++
    [EClose (backendConnOf target);
     ELog "Backend WebSocket dial failed: %v"
          [AErr (Expected101 (StatusCode resp))];
     EHttpError "Failed to connect to backend" 502]).
  { unfold handleWebSocket. cbv zeta. rewrite Hdial.
    unfold handshakeEvents.
    destruct (String.eqb (Scheme target) "https"); reflexivity. }
  repeat split.
  - rewrite Hdial. reflexivity.
  - exact Htrace.
  - rewrite Htrace. unfold handshakeEvents.
    destruct (String.eqb (Scheme target) "https"); reflexivity.
Qed.

Lemma rejected_handshake_witness :
  result (dialBackendWebSocket (envWith (mkResponse 404 ∅))
            (backendURL upgradeReq plainTarget) upgradeReq) =
    inl (Expected101 404) /\
  Error (Expected101 404) = "expected 101, got 404" /\
  trace (handleWebSocket (envWith (mkResponse 404 ∅)) upgradeReq plainTarget) =
    handshakeEvents upgradeReq plainTarget (mkResponse 404 ∅) ++
    [EClose tcpBackend;
     ELog "Backend WebSocket dial failed: %v" [AErr (Expected101 404)];
     EHttpError "Failed to connect to backend" 502] /\
  existsb isHijack
    (trace (handleWebSocket (envWith (mkResponse 404 ∅)) upgradeReq
                            plainTarget)) = false.
Proof.
  apply (rejected_handshake (envWith (mkResponse 404 ∅)) upgradeReq plainTarget
                            (mkResponse 404 ∅)).
  - reflexivity.
  - intros _. reflexivity.
  - reflexivity.
  - reflexivity.
  - vm_compute. discriminate.
Defined.

(** ** A backend answer without an accept token *)

(** C5: when the handshake went through and the client connection was
    hijacked but the backend's 101 answer has no [Sec-WebSocket-Accept]
    value, [writeSwitchingProtocols] fails with the missing-accept error
    without writing a byte, no pipe is started, and [handleWebSocket] closes
    the client connection and the backend connection. *)
Theorem missing_accept_aborts (env : Env) (r : Request) (target : URL)
  (resp : Response) :
  handshakeSucceeds env r target resp ->
  isHijacker env = true ->
  hijackResult env = None ->
  absentOrEmpty (RespHeader resp) "Sec-WebSocket-Accept" ->
  writeSwitchingProtocols env (clientConnOf env) r resp =
    (Some MissingAccept, []) /\
  trace (handleWebSocket env r target) =
    handshakeEvents r target resp ++
    [EHijack None;
     ELog "Failed to send upgrade response: %v" [AErr MissingAccept];
     EClose (clientConnOf env);
     EClose (backendConnOf target)] /\
  existsb isRelay (trace (handleWebSocket env r target)) = false /\
  goroutines env (trace (handleWebSocket env r target)) = [].
Proof.
  intros Hok Hh Hhr Hacc. apply Get_absentOrEmpty in Hacc.
  assert (Hw : writeSwitchingProtocols env (clientConnOf env) r resp =
               (Some MissingAccept, [])).
  { unfold writeSwitchingProtocols, switchingProtocols. rewrite Hacc.
    reflexivity. }
  assert (Htrace : trace (handleWebSocket env r target) =
    handshakeEvents r target resp ++
    [EHijack None;
     ELog "Failed to send upgrade response: %v" [AErr MissingAccept];
     EClose (clientConnOf env);
     EClose (backendConnOf target)]).
  { unfold handleWebSocket. cbv zeta. rewrite (dial_succeeds env r target resp Hok).
    unfold Hijack. rewrite Hh, Hhr. cbn [negb].
    fold (clientConnOf env).
    unfold defer, bind at 4. cbn [bind emit ret]. 
    unfold handshakeEvents.
    destruct (String.eqb (Scheme target) "https"); cbn; fold (clientConnOf env);
      rewrite Hw; reflexivity. }
  split; [exact Hw |]. split; [exact Htrace |].
  rewrite Htrace. unfold handshakeEvents.
  destruct (String.eqb (Scheme target) "https"); split; reflexivity.
Qed.

Lemma missing_accept_aborts_witness :
  writeSwitchingProtocols (envWith (mkResponse 101 ∅))
    (clientConnOf (envWith (mkResponse 101 ∅))) upgradeReq (mkResponse 101 ∅) =
    (Some MissingAccept, []) /\
  trace (handleWebSocket (envWith (mkResponse 101 ∅)) upgradeReq plainTarget) =
    handshakeEvents upgradeReq plainTarget (mkResponse 101 ∅) ++
    [EHijack None;
     ELog "Failed to send upgrade response: %v" [AErr MissingAccept];
     EClose (mkConn ClientLeg false true);
     EClose tcpBackend] /\
  existsb isRelay
    (trace (handleWebSocket (envWith (mkResponse 101 ∅)) upgradeReq
                            plainTarget)) = false /\
  goroutines (envWith (mkResponse 101 ∅))
    (trace (handleWebSocket (envWith (mkResponse 101 ∅)) upgradeReq
                            plainTarget)) = [].
Proof.
  apply (missing_accept_aborts (envWith (mkResponse 101 ∅)) upgradeReq
                               plainTarget (mkResponse 101 ∅)).
  - repeat split.
  - reflexivity.
  - reflexivity.
  - left. vm_compute. reflexivity.
Defined.

(** ** The established tunnel *)

(** A run in which everything succeeds: the response is written to the
    hijacked connection, one pipe per direction is started, and after both
    are done the client connection and the backend connection are closed. *)
Lemma tunnel_established (env : Env) (r : Request) (target : URL)
  (resp : Response) (text : string) :
  handshakeSucceeds env r target resp ->
  isHijacker env = true ->
  hijackResult env = None ->
  switchingProtocols r resp = inr text ->
  clientWriteResult env = None ->
  trace (handleWebSocket env r target) =
    handshakeEvents r target resp ++
    [EHijack None;
     EConnWrite (clientConnOf env) text;
     ELog "WebSocket connection established, proxying data..." [];
     EGoPipe (backendConnOf target) (clientConnOf env) "client→backend";
     EGoPipe (clientConnOf env) (backendConnOf target) "backend→client";
     EWait;
     EClose (clientConnOf env);
     EClose (backendConnOf target)].
Proof.
  intros Hok Hh Hhr Hsw Hcw.
  unfold handleWebSocket. cbv zeta.
  rewrite (dial_succeeds env r target resp Hok).
  unfold Hijack. rewrite Hh, Hhr. unfold handshakeEvents.
  destruct (String.eqb (Scheme target) "https"); cbn;
    unfold writeSwitchingProtocols; rewrite Hsw, Hcw; reflexivity.
Qed.

Lemma pipe_closes_dst (env : Env) (dst src : Conn) (dir : string) :
  exists t, trace (pipe env dst src dir) = t ++ [EClose dst].
Proof.
  unfold pipe.
  destruct (copyResult env dst src) as [n [e|]];
    try destruct (negb (Strings.Contains (Error e) _));
    destruct (isTLS dst), (hasCloseWrite dst).
  all: try (eexists [_; _; _; _]; reflexivity).
  all: eexists [_; _; _; _; _]; reflexivity.
Qed.

(** X12: Each of the two pipes ends by closing the connection it wrote to, and
    the two destinations are the two legs of the tunnel. *)
Lemma relay_closes_both_legs (env : Env) (r : Request) (target : URL)
  (resp : Response) (text : string) :
  handshakeSucceeds env r target resp ->
  isHijacker env = true ->
  hijackResult env = None ->
  switchingProtocols r resp = inr text ->
  clientWriteResult env = None ->
  exists t1 t2,
    goroutines env (trace (handleWebSocket env r target)) =
      [t1 ++ [EClose (backendConnOf target)];
       t2 ++ [EClose (clientConnOf env)]].
Proof.
  intros Hok Hh Hhr Hsw Hcw.
  rewrite (tunnel_established env r target resp text Hok Hh Hhr Hsw Hcw).
  destruct (pipe_closes_dst env (backendConnOf target) (clientConnOf env)
                            "client→backend") as [t1 H1].
  destruct (pipe_closes_dst env (clientConnOf env) (backendConnOf target)
                            "backend→client") as [t2 H2].
  exists t1, t2. rewrite <- H1, <- H2.
  unfold handshakeEvents, goroutines.
  destruct (String.eqb (Scheme target) "https"); reflexivity.
Qed.

(** ** Runs on the sample requests *)

Example detector_accepts_upgrade :
  isWebSocketRequest idLower upgradeReq = true.
Proof. vm_compute. reflexivity. Qed.

Example detector_rejects_plain : isWebSocketRequest idLower plainReq = false.
Proof. vm_compute. reflexivity. Qed.

(** The [Connection] test is a substring test. *)
Example detector_substring :
  isWebSocketRequest idLower
    (mkRequest "GET" (mkURL "" "" "/" "")
       (headersOf [("Upgrade", "WebSocket"); ("Connection", "Upgraded")])
       "gateway.example") = true.
Proof. vm_compute. reflexivity. Qed.

Example canonical_key :
  CanonicalMIMEHeaderKey "sec-webSocket-key" = "Sec-Websocket-Key".
Proof. reflexivity. Qed.

Example default_ports :
  dialAddress (backendURL upgradeReq plainTarget) = "backend.example:80" /\
  dialAddress (backendURL upgradeReq tlsTarget) = "backend.example:443" /\
  dialAddress (backendURL upgradeReq (mkURL "http" "backend.example:8080" "" ""))
  = "backend.example:8080".
Proof. repeat split. Qed.

Example listed_chat :
  listedProtocols "chat, superchat" = ["chat"; "superchat"].
Proof. reflexivity. Qed.

Example echo_chat :
  switchingProtocols upgradeReq (backendOK [("Sec-WebSocket-Protocol", "chat")])
  = inr (fixedLines sampleAccept +:+
         ("Sec-WebSocket-Protocol: " +:+ "chat" +:+ CRLF) +:+ CRLF) /\
  switchingProtocols upgradeReq
    (backendOK [("Sec-WebSocket-Protocol", "binary")])
  = inr (fixedLines sampleAccept +:+ CRLF).
Proof. split; vm_compute; reflexivity. Qed.

Example gate_passes_any_value :
  handler idLower (envWith (backendOK [])) (mkConfig "x-gate-token" plainTarget)
    (mkRequest "GET" (mkURL "" "" "/index.html" "")
       (headersOf [("X-Gate-Token", "anything")]) "gateway.example") =
  (tt, [EServeHTTP
          (mkRequest "GET" (mkURL "" "" "/index.html" "")
             (headersOf [("X-Gate-Token", "anything")]) "gateway.example")]).
Proof. vm_compute. reflexivity. Qed.

(** ** More on [dialBackendWebSocket] *)

(** One more answer of the environment that the run in the goal waits
    for. *)
Ltac ask_goal :=
  match goal with
  | |- context [match ?x with _ => _ end] =>
      lazymatch x with
      | context [match _ with _ => _ end] => fail
      | _ => destruct x eqn:?
      end
  end; cbn.

Ltac run_dial :=
  unfold dialBackendWebSocket, result, trace, countIf; cbn; repeat ask_goal.

(** X1: What a successful [dialBackendWebSocket] has established: the dial and
    the write went through, the answer it returns is the one read and has
    status 101, the connection it returns is the backend's and is a TLS
    connection exactly for the scheme wss, and nothing was closed. *)
Theorem dial_success_postcondition (env : Env) (u : URL) (r : Request)
  (c : Conn) (resp : Response) :
  result (dialBackendWebSocket env u r) = inr (c, resp) ->
  dialResult env (dialAddress u) = None /\
  writeRequestResult env = None /\
  readResponseResult env = inr resp /\
  StatusCode resp = 101 /\
  leg c = BackendLeg /\
  isTLS c = String.eqb (Scheme u) "wss" /\
  countIf isClose (trace (dialBackendWebSocket env u r)) = 0%nat.
Proof.
  run_dial; intros H; try discriminate H; injection H as <- <-.
  all: repeat match goal with
       | E : negb _ = false |- _ => apply negb_false_iff, Z.eqb_eq in E
       end.
  all: repeat split; auto.
Qed.

Lemma dial_success_postcondition_witness :
  dialResult (envWith (backendOK [])) (dialAddress (backendURL upgradeReq tlsTarget))
    = None /\
  writeRequestResult (envWith (backendOK [])) = None /\
  readResponseResult (envWith (backendOK [])) = inr (backendOK []) /\
  StatusCode (backendOK []) = 101 /\
  leg tlsBackend = BackendLeg /\
  isTLS tlsBackend = String.eqb (Scheme (backendURL upgradeReq tlsTarget)) "wss" /\
  countIf isClose
    (trace (dialBackendWebSocket (envWith (backendOK []))
              (backendURL upgradeReq tlsTarget) upgradeReq)) = 0%nat.
Proof.
  apply (dial_success_postcondition (envWith (backendOK []))
           (backendURL upgradeReq tlsTarget) upgradeReq tlsBackend
           (backendOK [])).
  vm_compute. reflexivity.
Defined.

(** X2: [dialBackendWebSocket] leaks no connection: when it fails after the dial
    went through, the last thing it does is close the backend connection,
    and it closes nothing before; when the dial itself fails there is
    nothing to close and nothing else is done; when it succeeds nothing is
    closed. *)
Theorem dial_failure_releases (env : Env) (u : URL) (r : Request) :
  match result (dialBackendWebSocket env u r),
        dialResult env (dialAddress u) with
  | inl _, None =>
      exists t c,
        trace (dialBackendWebSocket env u r) = t ++ [EClose c] /\
        leg c = BackendLeg /\ countIf isClose t = 0%nat
  | inl _, Some err =>
      trace (dialBackendWebSocket env u r) =
      [EDialTimeout "tcp" (dialAddress u) 10000000000 (Some err)]
  | inr _, _ => countIf isClose (trace (dialBackendWebSocket env u r)) = 0%nat
  end.
Proof.
  run_dial; try reflexivity.
  all: try (eexists [_; _], _; repeat split; reflexivity).
  all: try (eexists [_; _; _], _; repeat split; reflexivity).
  all: try (eexists [_; _; _; _], _; repeat split; reflexivity).
  all: try (eexists [_], _; repeat split; reflexivity).
Qed.

(** ** More on [handleWebSocket] *)

Ltac run_handler :=
  unfold handleWebSocket, dialBackendWebSocket, Hijack,
    writeSwitchingProtocols, httpError, log, defer, trace, result, countIf;
  rewrite ?handshake_scheme; cbn; repeat ask_goal.

(** X3: Every run dials the backend once and only once, over tcp, at the address
    computed from the target, with a timeout of ten seconds: a failed
    handshake is not tried again. *)
Theorem one_dial_per_request (env : Env) (r : Request) (target : URL) :
  List.filter isDial (trace (handleWebSocket env r target)) =
  [EDialTimeout "tcp" (dialAddress (backendURL r target)) 10000000000
                (dialResult env (dialAddress (backendURL r target)))].
Proof. run_handler; reflexivity. Qed.

(** X4: The backend is spoken to over TLS exactly when the configured target has
    the scheme https: then there is one TLS handshake, right after the dial,
    for the target's host name and with certificate verification off, and
    for every other scheme there is none. *)
Theorem tls_iff_https (env : Env) (r : Request) (target : URL) :
  List.filter isTLSHandshake (trace (handleWebSocket env r target)) =
  match dialResult env (dialAddress (backendURL r target)) with
  | None =>
      if String.eqb (Scheme target) "https"
      then [ETLSHandshake (Hostname (backendURL r target)) true (tlsResult env)]
      else []
  | Some _ => []
  end.
Proof. run_handler; reflexivity. Qed.

(** X5: A run answers through the [http.ResponseWriter] at most once, and a run
    that has hijacked the connection never answers through it: the number
    of [http.Error] calls and of successful hijacks together is at most
    one. *)
Theorem response_or_hijack (env : Env) (r : Request) (target : URL) :
  (countIf isHttpError (trace (handleWebSocket env r target)) +
   countIf isHijackOK (trace (handleWebSocket env r target)) <= 1)%nat.
Proof. run_handler; lia. Qed.

Lemma dial_never_hijacks (env : Env) (u : URL) (r : Request) :
  existsb (fun e => isHijack e || isRelay e || clientVisible e)
          (trace (dialBackendWebSocket env u r)) = false.
Proof. run_dial; reflexivity. Qed.

(** X6: Every failure of the upstream handshake, whatever its cause, is answered
    in the same way: the error is logged, the caller gets [http.Error] with
    502 and "Failed to connect to backend" as the last event, and the client
    connection is neither hijacked nor touched before. *)
Theorem dial_failure_is_502 (env : Env) (r : Request) (target : URL)
  (err : error) :
  result (dialBackendWebSocket env (backendURL r target) r) = inl err ->
  trace (handleWebSocket env r target) =
    [ELog "WebSocket upgrade request: %s %s"
          [AStr (Method r); AStr (Path (RURL r))];
     ELog "Connecting to backend WebSocket: %s" [AURL (backendURL r target)]] ++
    trace (dialBackendWebSocket env (backendURL r target) r) ++
    [ELog "Backend WebSocket dial failed: %v" [AErr err];
     EHttpError "Failed to connect to backend" 502] /\
  existsb (fun e => isHijack e || isRelay e || clientVisible e)
          (trace (dialBackendWebSocket env (backendURL r target) r)) = false.
Proof.
  intros H. split; [| apply dial_never_hijacks].
  unfold handleWebSocket. cbv zeta.
  destruct (dialBackendWebSocket env (backendURL r target) r)
    as [[e | [c resp]] t]; cbn in H; [| discriminate H].
  injection H as ->. unfold trace, log, httpError, emit, bind. cbn.
  reflexivity.
Qed.

Lemma dial_failure_is_502_witness :
  trace (handleWebSocket
           (mkEnv (fun _ => Some (LibError "connection refused")) None None
                  (inr (backendOK [])) true None false true None
                  (fun _ _ => (0, None)))
           upgradeReq plainTarget) =
    [ELog "WebSocket upgrade request: %s %s"
          [AStr (Method upgradeReq); AStr (Path (RURL upgradeReq))];
     ELog "Connecting to backend WebSocket: %s"
          [AURL (backendURL upgradeReq plainTarget)]] ++
    trace (dialBackendWebSocket
             (mkEnv (fun _ => Some (LibError "connection refused")) None None
                    (inr (backendOK [])) true None false true None
                    (fun _ _ => (0, None)))
             (backendURL upgradeReq plainTarget) upgradeReq) ++
    [ELog "Backend WebSocket dial failed: %v"
          [AErr (LibError "connection refused")];
     EHttpError "Failed to connect to backend" 502] /\
  existsb (fun e => isHijack e || isRelay e || clientVisible e)
          (trace (dialBackendWebSocket
             (mkEnv (fun _ => Some (LibError "connection refused")) None None
                    (inr (backendOK [])) true None false true None
                    (fun _ _ => (0, None)))
             (backendURL upgradeReq plainTarget) upgradeReq)) = false.
Proof.
  apply (dial_failure_is_502
           (mkEnv (fun _ => Some (LibError "connection refused")) None None
                  (inr (backendOK [])) true None false true None
                  (fun _ _ => (0, None)))
           upgradeReq plainTarget (LibError "connection refused")).
  reflexivity.
Defined.

Ltac after_handshake Hok :=
  unfold handleWebSocket; cbv zeta;
  rewrite (dial_succeeds _ _ _ _ Hok);
  unfold Hijack, handshakeEvents.

(** X7: When the server's [ResponseWriter] is no [http.Hijacker], the handshake
    with the backend has already been made: the caller gets [http.Error] 500
    "Hijacking not supported", no hijack is tried, and the backend connection
    is closed afterwards. *)
Theorem hijack_unsupported (env : Env) (r : Request) (target : URL)
  (resp : Response) :
  handshakeSucceeds env r target resp ->
  isHijacker env = false ->
  trace (handleWebSocket env r target) =
    handshakeEvents r target resp ++
    [ELog "Hijacking not supported" [];
     EHttpError "Hijacking not supported" 500;
     EClose (backendConnOf target)].
Proof.
  intros Hok Hh. after_handshake Hok. rewrite Hh.
  destruct (String.eqb (Scheme target) "https"); reflexivity.
Qed.

Lemma hijack_unsupported_witness :
  trace (handleWebSocket
           (mkEnv (fun _ => None) None None (inr (backendOK [])) false None
                  false true None (fun _ _ => (0, None)))
           upgradeReq plainTarget) =
    handshakeEvents upgradeReq plainTarget (backendOK []) ++
    [ELog "Hijacking not supported" [];
     EHttpError "Hijacking not supported" 500;
     EClose tcpBackend].
Proof.
  apply (hijack_unsupported
           (mkEnv (fun _ => None) None None (inr (backendOK [])) false None
                  false true None (fun _ _ => (0, None)))
           upgradeReq plainTarget (backendOK [])).
  - repeat split.
  - reflexivity.
Defined.

(** X8: When [Hijack] itself fails, the failure is logged and the backend
    connection is closed, and that is all: the caller is sent no response by
    the handler and no pipe is started. *)
Theorem hijack_failed (env : Env) (r : Request) (target : URL)
  (resp : Response) (err : error) :
  handshakeSucceeds env r target resp ->
  isHijacker env = true ->
  hijackResult env = Some err ->
  trace (handleWebSocket env r target) =
    handshakeEvents r target resp ++
    [EHijack (Some err);
     ELog "Hijack failed: %v" [AErr err];
     EClose (backendConnOf target)].
Proof.
  intros Hok Hh Hhr. after_handshake Hok. rewrite Hh, Hhr.
  destruct (String.eqb (Scheme target) "https"); reflexivity.
Qed.

Lemma hijack_failed_witness :
  trace (handleWebSocket
           (mkEnv (fun _ => None) None None (inr (backendOK [])) true
                  (Some (LibError "http: connection has been hijacked"))
                  false true None (fun _ _ => (0, None)))
           upgradeReq plainTarget) =
    handshakeEvents upgradeReq plainTarget (backendOK []) ++
    [EHijack (Some (LibError "http: connection has been hijacked"));
     ELog "Hijack failed: %v"
          [AErr (LibError "http: connection has been hijacked")];
     EClose tcpBackend].
Proof.
  apply (hijack_failed
           (mkEnv (fun _ => None) None None (inr (backendOK [])) true
                  (Some (LibError "http: connection has been hijacked"))
                  false true None (fun _ _ => (0, None)))
           upgradeReq plainTarget (backendOK [])).
  - repeat split.
  - reflexivity.
  - reflexivity.
Defined.

(** X9: When the write of the 101 response to the hijacked connection fails, the
    error is logged, no pipe is started, and the client connection and then
    the backend connection are closed. *)
Theorem client_write_failed (env : Env) (r : Request) (target : URL)
  (resp : Response) (text : string) (err : error) :
  handshakeSucceeds env r target resp ->
  isHijacker env = true ->
  hijackResult env = None ->
  switchingProtocols r resp = inr text ->
  clientWriteResult env = Some err ->
  trace (handleWebSocket env r target) =
    handshakeEvents r target resp ++
    [EHijack None;
     EConnWrite (clientConnOf env) text;
     ELog "Failed to send upgrade response: %v" [AErr err];
     EClose (clientConnOf env);
     EClose (backendConnOf target)] /\
  goroutines env (trace (handleWebSocket env r target)) = [].
Proof.
  intros Hok Hh Hhr Hsw Hcw.
  assert (Ht : trace (handleWebSocket env r target) =
    handshakeEvents r target resp ++
    [EHijack None;
     EConnWrite (clientConnOf env) text;
     ELog "Failed to send upgrade response: %v" [AErr err];
     EClose (clientConnOf env);
     EClose (backendConnOf target)]).
  { after_handshake Hok. rewrite Hh, Hhr.
    destruct (String.eqb (Scheme target) "https"); cbn;
      unfold writeSwitchingProtocols; rewrite Hsw, Hcw; reflexivity. }
  split; [exact Ht |]. rewrite Ht. unfold handshakeEvents, goroutines.
  destruct (String.eqb (Scheme target) "https"); reflexivity.
Qed.

Lemma client_write_failed_witness :
  trace (handleWebSocket
           (mkEnv (fun _ => None) None None (inr (backendOK [])) true None
                  false true (Some (LibError "broken pipe"))
                  (fun _ _ => (0, None)))
           upgradeReq plainTarget) =
    handshakeEvents upgradeReq plainTarget (backendOK []) ++
    [EHijack None;
     EConnWrite (mkConn ClientLeg false true) (fixedLines sampleAccept +:+ CRLF);
     ELog "Failed to send upgrade response: %v" [AErr (LibError "broken pipe")];
     EClose (mkConn ClientLeg false true);
     EClose tcpBackend] /\
  goroutines
    (mkEnv (fun _ => None) None None (inr (backendOK [])) true None
           false true (Some (LibError "broken pipe")) (fun _ _ => (0, None)))
    (trace (handleWebSocket
           (mkEnv (fun _ => None) None None (inr (backendOK [])) true None
                  false true (Some (LibError "broken pipe"))
                  (fun _ _ => (0, None)))
           upgradeReq plainTarget)) = [].
Proof.
  apply (client_write_failed
           (mkEnv (fun _ => None) None None (inr (backendOK [])) true None
                  false true (Some (LibError "broken pipe"))
                  (fun _ _ => (0, None)))
           upgradeReq plainTarget (backendOK [])
           (fixedLines sampleAccept +:+ CRLF) (LibError "broken pipe")).
  - repeat split.
  - reflexivity.
  - reflexivity.
  - vm_compute. reflexivity.
  - reflexivity.
Defined.

(** X10: In a run where everything succeeds, the 101 response is written to the
    client before any pipe is started, exactly two pipes are started, one
    from the client to the backend and one from the backend to the client,
    the handler waits for them, and then closes the client connection and
    the backend connection. *)
Theorem tunnel_runs_two_pipes (env : Env) (r : Request) (target : URL)
  (resp : Response) (text : string) :
  handshakeSucceeds env r target resp ->
  isHijacker env = true ->
  hijackResult env = None ->
  switchingProtocols r resp = inr text ->
  clientWriteResult env = None ->
  trace (handleWebSocket env r target) =
    handshakeEvents r target resp ++
    [EHijack None;
     EConnWrite (clientConnOf env) text;
     ELog "WebSocket connection established, proxying data..." [];
     EGoPipe (backendConnOf target) (clientConnOf env) "client→backend";
     EGoPipe (clientConnOf env) (backendConnOf target) "backend→client";
     EWait;
     EClose (clientConnOf env);
     EClose (backendConnOf target)] /\
  goroutines env (trace (handleWebSocket env r target)) =
    [trace (pipe env (backendConnOf target) (clientConnOf env) "client→backend");
     trace (pipe env (clientConnOf env) (backendConnOf target) "backend→client")].
Proof.
  intros Hok Hh Hhr Hsw Hcw.
  pose proof (tunnel_established env r target resp text Hok Hh Hhr Hsw Hcw)
    as Ht.
  split; [exact Ht |]. rewrite Ht. unfold handshakeEvents, goroutines.
  destruct (String.eqb (Scheme target) "https"); reflexivity.
Qed.

Lemma tunnel_runs_two_pipes_witness :
  trace (handleWebSocket (envWith (backendOK [])) upgradeReq plainTarget) =
    handshakeEvents upgradeReq plainTarget (backendOK []) ++
    [EHijack None;
     EConnWrite (mkConn ClientLeg false true) (fixedLines sampleAccept +:+ CRLF);
     ELog "WebSocket connection established, proxying data..." [];
     EGoPipe tcpBackend (mkConn ClientLeg false true) "client→backend";
     EGoPipe (mkConn ClientLeg false true) tcpBackend "backend→client";
     EWait;
     EClose (mkConn ClientLeg false true);
     EClose tcpBackend] /\
  goroutines (envWith (backendOK []))
    (trace (handleWebSocket (envWith (backendOK [])) upgradeReq plainTarget)) =
    [trace (pipe (envWith (backendOK [])) tcpBackend
                 (mkConn ClientLeg false true) "client→backend");
     trace (pipe (envWith (backendOK [])) (mkConn ClientLeg false true)
                 tcpBackend "backend→client")].
Proof.
  apply (tunnel_runs_two_pipes (envWith (backendOK [])) upgradeReq plainTarget
           (backendOK []) (fixedLines sampleAccept +:+ CRLF)).
  - repeat split.
  - reflexivity.
  - reflexivity.
  - vm_compute. reflexivity.
  - reflexivity.
Defined.

Lemma pipe_close_events (env : Env) (dst src : Conn) (dir : string) :
  List.filter isClose (trace (pipe env dst src dir)) = [EClose dst].
Proof.
  unfold pipe.
  destruct (copyResult env dst src) as [n [e|]];
    try destruct (negb (Strings.Contains (Error e) _));
    destruct (isTLS dst), (hasCloseWrite dst); reflexivity.
Qed.

(** X11: Once the client connection is hijacked, every run of the handler,
    however it goes on, ends with the handler's two deferred calls, [Close]
    on the client connection and then [Close] on the backend connection,
    and never answers through the [http.ResponseWriter].  Those are the
    only [Close] calls that the handler makes itself.  The pipes make their
    own: a run either starts no pipe, or starts the two pipes, which close
    the backend connection and the client connection once each, so that in
    an established tunnel [Close] is called twice on each connection. *)
Theorem hijacked_run_closes_both (env : Env) (r : Request) (target : URL)
  (resp : Response) :
  handshakeSucceeds env r target resp ->
  isHijacker env = true ->
  hijackResult env = None ->
  List.filter isClose (trace (handleWebSocket env r target)) =
    [EClose (clientConnOf env); EClose (backendConnOf target)] /\
  (exists t,
     trace (handleWebSocket env r target) =
       t ++ [EClose (clientConnOf env); EClose (backendConnOf target)]) /\
  countIf isHttpError (trace (handleWebSocket env r target)) = 0%nat /\
  (map (List.filter isClose)
       (goroutines env (trace (handleWebSocket env r target))) = [] \/
   map (List.filter isClose)
       (goroutines env (trace (handleWebSocket env r target))) =
     [[EClose (backendConnOf target)]; [EClose (clientConnOf env)]]).
Proof.
  intros Hok Hh Hhr. after_handshake Hok. rewrite Hh, Hhr.
  unfold writeSwitchingProtocols, backendConnOf, trace, countIf, goroutines.
  destruct (String.eqb (Scheme target) "https"); cbn;
    destruct (switchingProtocols r resp) as [e | text]; cbn;
    try destruct (clientWriteResult env); cbn.
  all: fold (clientConnOf env).
  all: split; [reflexivity |]; split; [| split; [reflexivity |]].
  all: rewrite ?pipe_close_events.
  all: try (left; reflexivity); try (right; reflexivity).
  all: first
    [ eexists [_; _; _; _; _; _; _; _; _; _; _; _]; reflexivity
    | eexists [_; _; _; _; _; _; _; _; _; _; _]; reflexivity
    | eexists [_; _; _; _; _; _; _; _; _]; reflexivity
    | eexists [_; _; _; _; _; _; _; _]; reflexivity
    | eexists [_; _; _; _; _; _; _]; reflexivity
    | eexists [_; _; _; _; _; _; _; _; _; _]; reflexivity ].
Qed.

Lemma hijacked_run_closes_both_witness :
  List.filter isClose
    (trace (handleWebSocket (envWith (backendOK [])) upgradeReq tlsTarget)) =
    [EClose (mkConn ClientLeg false true); EClose tlsBackend] /\
  (exists t,
     trace (handleWebSocket (envWith (backendOK [])) upgradeReq tlsTarget) =
       t ++ [EClose (mkConn ClientLeg false true); EClose tlsBackend]) /\
  countIf isHttpError
    (trace (handleWebSocket (envWith (backendOK [])) upgradeReq tlsTarget))
  = 0%nat /\
  (map (List.filter isClose)
       (goroutines (envWith (backendOK []))
          (trace (handleWebSocket (envWith (backendOK [])) upgradeReq
                                  tlsTarget))) = [] \/
   map (List.filter isClose)
       (goroutines (envWith (backendOK []))
          (trace (handleWebSocket (envWith (backendOK [])) upgradeReq
                                  tlsTarget))) =
     [[EClose tlsBackend]; [EClose (mkConn ClientLeg false true)]]).
Proof.
  apply (hijacked_run_closes_both (envWith (backendOK [])) upgradeReq tlsTarget
                                  (backendOK [])).
  - repeat split.
  - reflexivity.
  - reflexivity.
Defined.

Lemma relay_closes_both_legs_witness :
  exists t1 t2,
    goroutines (envWith (backendOK []))
      (trace (handleWebSocket (envWith (backendOK [])) upgradeReq tlsTarget)) =
      [t1 ++ [EClose tlsBackend]; t2 ++ [EClose (mkConn ClientLeg false true)]].
Proof.
  apply (relay_closes_both_legs (envWith (backendOK [])) upgradeReq tlsTarget
           (backendOK []) (fixedLines sampleAccept +:+ CRLF)).
  - repeat split.
  - reflexivity.
  - reflexivity.
  - vm_compute. reflexivity.
  - reflexivity.
Defined.

(** ** More on [pipe] *)

(** X13: A pipe reads its source only through the copy: apart from the copy and
    the log line, everything it does (deadline, close frame, half-close,
    close) is done to its destination, and it closes the destination exactly
    once. *)
Theorem pipe_only_touches_dst (env : Env) (dst src : Conn) (dir : string) :
  Forall (fun e => match e with
                   | ECopy d s _ _ => d = dst /\ s = src
                   | ELog _ _ => True
                   | _ => connOf e = Some dst
                   end)
         (trace (pipe env dst src dir)) /\
  List.filter isClose (trace (pipe env dst src dir)) = [EClose dst].
Proof.
  unfold pipe.
  destruct (copyResult env dst src) as [n [e|]];
    try destruct (negb (Strings.Contains (Error e) _));
    destruct (isTLS dst), (hasCloseWrite dst); cbn.
  all: split; [repeat constructor | reflexivity].
Qed.

(** ** More on the request sent to the backend *)

Lemma upgradeRequest_optional_absent_witness :
  RHeader (upgradeRequest (backendURL upgradeReq plainTarget) upgradeReq)
    !! CanonicalMIMEHeaderKey "Authorization" = None.
Proof.
  apply (upgradeRequest_optional_absent (backendURL upgradeReq plainTarget)
                                        upgradeReq "Authorization").
  - right. right. reflexivity.
  - vm_compute. reflexivity.
Defined.

(** X16: Nothing else of the client's request reaches the backend: a header whose
    canonical name is none of the seven that [dialBackendWebSocket] sets
    ([Cookie], [Origin], [User-Agent], ...) is absent from the request it
    sends. *)
Theorem upgradeRequest_drops_other_headers (u : URL) (r : Request)
  (k : string) :
  ~ In (CanonicalMIMEHeaderKey k) forwardedKeys ->
  RHeader (upgradeRequest u r) !! CanonicalMIMEHeaderKey k = None /\
  Get (RHeader (upgradeRequest u r)) k = EmptyString.
Proof.
  intros Hk.
  assert (Hnone : RHeader (upgradeRequest u r) !! CanonicalMIMEHeaderKey k
                  = None).
  { unfold upgradeRequest. cbn [RHeader]. unfold forwardIfPresent, Set_.
    repeat match goal with
    | |- context [if ?b then _ else _] => destruct b
    end;
    repeat (rewrite lookup_insert_ne;
            [| intros Heq; apply Hk; rewrite <- Heq; unfold forwardedKeys;
               cbn [map In]; tauto ]);
    apply lookup_empty. }
  split; [exact Hnone |]. unfold Get. rewrite Hnone. reflexivity.
Qed.

Lemma upgradeRequest_drops_other_headers_witness :
  RHeader (upgradeRequest (backendURL upgradeReq plainTarget) upgradeReq)
    !! CanonicalMIMEHeaderKey "cookie" = None /\
  Get (RHeader (upgradeRequest (backendURL upgradeReq plainTarget) upgradeReq))
      "cookie" = EmptyString.
Proof.
  apply (upgradeRequest_drops_other_headers
           (backendURL upgradeReq plainTarget) upgradeReq "cookie").
  vm_compute. intros H.
  repeat (destruct H as [H | H]; [discriminate H |]). exact H.
Defined.

Lemma listed_protocol_echoed_witness :
  switchingProtocols upgradeReq
    (backendOK [("Sec-WebSocket-Protocol", "superchat")]) =
  inr (fixedLines sampleAccept +:+
       ("Sec-WebSocket-Protocol: " +:+ "superchat" +:+ CRLF) +:+ CRLF).
Proof.
  apply (listed_protocol_echoed upgradeReq
           (backendOK [("Sec-WebSocket-Protocol", "superchat")])).
  - vm_compute. discriminate.
  - vm_compute. discriminate.
  - vm_compute. right. left. reflexivity.
Defined.

(** ** The address that is dialled *)

(** X18: The dialled address comes from the configured target alone: a host that
    has a colon is dialled as it is, whatever the scheme, and any other host
    gets ":443" for the scheme https and ":80" for every other scheme. *)
Theorem backend_address_of_target (r : Request) (target : URL) :
  dialAddress (backendURL r target) =
  if Strings.Contains (UHost target) ":" then UHost target
  else UHost target +:+
       (if String.eqb (Scheme target) "https" then ":443" else ":80").
Proof.
  unfold dialAddress, backendURL. cbn [UHost Scheme].
  destruct (Strings.Contains (UHost target) ":"); cbn [negb];
    [reflexivity |].
  destruct (String.eqb (Scheme target) "https"); reflexivity.
Qed.

Lemma Contains_append (s t sub : string) :
  Strings.Contains t sub = true -> Strings.Contains (s +:+ t) sub = true.
Proof.
  rewrite !Contains_spec. intros (pre & post & ->).
  exists (s +:+ pre), post. rewrite append_assoc'. reflexivity.
Qed.

(** X19: The address handed to the dialler always has a colon. *)
Theorem dialAddress_has_colon (u : URL) :
  Strings.Contains (dialAddress u) ":" = true.
Proof.
  unfold dialAddress.
  destruct (Strings.Contains (UHost u) ":") eqn:E; cbn [negb]; [exact E |].
  destruct (String.eqb (Scheme u) "wss"); apply Contains_append; reflexivity.
Qed.

(** ** Start-up and the gate *)

(** X20: The backend URL that [main] parses is never the empty string: a variable
    that is unset or set to nothing gives the built-in default. *)
Theorem backend_setting_nonempty (environ : gmap string string) :
  nonEmpty (getEnv environ "BACKEND_URL" "https://your-backend-server.com")
  = true /\
  (Getenv environ "BACKEND_URL" = EmptyString ->
   getEnv environ "BACKEND_URL" "https://your-backend-server.com" =
   "https://your-backend-server.com").
Proof.
  unfold getEnv. split.
  - destruct (nonEmpty (Getenv environ "BACKEND_URL")) eqn:E;
      [exact E | reflexivity].
  - intros ->. reflexivity.
Qed.

Lemma detector_needs_upgrade (f : string -> string) (r : Request) :
  Get (RHeader r) "Upgrade" = EmptyString -> isWebSocketRequest f r = false.
Proof. intros H. unfold isWebSocketRequest. rewrite H. reflexivity. Qed.

(** X21: Without a [VERIFICATION_HEADER] setting, or with an empty one, the gate
    is off: no request is answered by the gate's 502, every request goes to
    the tunnel or to the proxy. *)
Theorem gate_off_without_setting (parseURL : string -> error + URL)
  (environ : gmap string string) (cfg : Config)
  (f : string -> string) (env : Env) (r : Request) :
  Getenv environ "VERIFICATION_HEADER" = EmptyString ->
  mainConfig parseURL environ = inr cfg ->
  handler f env cfg r =
  if isWebSocketRequest f r then handleWebSocket env r (target cfg)
  else (tt, [EServeHTTP r]).
Proof.
  intros Hv Hcfg. unfold mainConfig, getEnv in Hcfg. rewrite Hv in Hcfg.
  cbn [nonEmpty String.eqb negb] in Hcfg.
  destruct (parseURL _) as [e | t]; [discriminate Hcfg |].
  injection Hcfg as <-. unfold handler. cbn. reflexivity.
Qed.

Lemma gate_off_without_setting_witness :
  handler idLower (envWith (backendOK [])) (mkConfig "" tlsTarget) plainReq =
  if isWebSocketRequest idLower plainReq
  then handleWebSocket (envWith (backendOK [])) plainReq
         (target (mkConfig "" tlsTarget))
  else (tt, [EServeHTTP plainReq]).
Proof.
  apply (gate_off_without_setting (fun _ => inr tlsTarget) ∅
           (mkConfig "" tlsTarget) idLower (envWith (backendOK [])) plainReq).
  - reflexivity.
  - reflexivity.
Defined.

(** X22: What a rejected client sees is what a client sees when the proxy cannot
    reach the backend: status 502 and the body "Bad Gateway". *)
Theorem gate_rejection_like_proxy_error (f : string -> string) (env : Env)
  (cfg : Config) (r : Request) (err : error) :
  verificationHeader cfg <> EmptyString ->
  Get (RHeader r) (verificationHeader cfg) = EmptyString ->
  trace (handler f env cfg r) =
  List.filter clientVisible (trace (errorHandler err)).
Proof.
  intros Hcfg Hv. unfold handler, nonEmpty.
  apply String.eqb_neq in Hcfg. rewrite Hcfg, Hv. reflexivity.
Qed.

Lemma gate_rejection_like_proxy_error_witness :
  trace (handler idLower (envWith (backendOK []))
           (mkConfig "X-Gate-Token" plainTarget) plainReq) =
  List.filter clientVisible
    (trace (errorHandler (LibError "dial tcp: connection refused"))).
Proof.
  apply (gate_rejection_like_proxy_error idLower (envWith (backendOK []))
           (mkConfig "X-Gate-Token" plainTarget) plainReq
           (LibError "dial tcp: connection refused")).
  - discriminate.
  - vm_compute. reflexivity.
Defined.

(** X23: A request without an [Upgrade] value never reaches the tunnel code: the
    handler does not dial the backend and does not hijack; it either rejects
    the request at the gate or hands it, unchanged, to the proxy. *)
Theorem non_upgrade_never_dials (f : string -> string) (env : Env)
  (cfg : Config) (r : Request) :
  Get (RHeader r) "Upgrade" = EmptyString ->
  (trace (handler f env cfg r) = [EServeHTTP r] \/
   trace (handler f env cfg r) =
     [EWriteHeader 502; EWriteBody "Bad Gateway"]) /\
  countIf isDial (trace (handler f env cfg r)) = 0%nat /\
  countIf isHijack (trace (handler f env cfg r)) = 0%nat.
Proof.
  intros H. unfold handler. rewrite (detector_needs_upgrade f r H).
  destruct (nonEmpty (verificationHeader cfg) && _); cbn; auto.
Qed.

Lemma non_upgrade_never_dials_witness :
  (trace (handler idLower (envWith (backendOK []))
            (mkConfig "" plainTarget) plainReq) = [EServeHTTP plainReq] \/
   trace (handler idLower (envWith (backendOK []))
            (mkConfig "" plainTarget) plainReq) =
     [EWriteHeader 502; EWriteBody "Bad Gateway"]) /\
  countIf isDial (trace (handler idLower (envWith (backendOK []))
                           (mkConfig "" plainTarget) plainReq)) = 0%nat /\
  countIf isHijack (trace (handler idLower (envWith (backendOK []))
                             (mkConfig "" plainTarget) plainReq)) = 0%nat.
Proof.
  apply (non_upgrade_never_dials idLower (envWith (backendOK []))
           (mkConfig "" plainTarget) plainReq).
  vm_compute. reflexivity.
Defined.

(** ** Letter case *)

Lemma lowerByte_idem (a : ascii) :
  Strings.lowerByte (Strings.lowerByte a) = Strings.lowerByte a.
Proof. destruct a as [[] [] [] [] [] [] [] []]; reflexivity. Qed.

Lemma upperByte_lower (a : ascii) :
  Strings.upperByte (Strings.lowerByte a) = Strings.upperByte a.
Proof. destruct a as [[] [] [] [] [] [] [] []]; reflexivity. Qed.

Lemma valid_lower (a : ascii) :
  validHeaderFieldByte (Strings.lowerByte a) = validHeaderFieldByte a.
Proof. destruct a as [[] [] [] [] [] [] [] []]; reflexivity. Qed.

Lemma canonicalize_lower (upper : bool) (s : string) :
  canonicalize upper (Strings.mapBytes Strings.lowerByte s) =
  canonicalize upper s.
Proof.
  revert upper. induction s as [|c s IH]; intros upper; [reflexivity |].
  cbn [Strings.mapBytes canonicalize].
  destruct upper; rewrite ?upperByte_lower, ?lowerByte_idem, IH; reflexivity.
Qed.

Lemma allBytes_valid_lower (s : string) :
  Strings.allBytes validHeaderFieldByte (Strings.mapBytes Strings.lowerByte s)
  = Strings.allBytes validHeaderFieldByte s.
Proof.
  induction s as [|c s IH]; [reflexivity |].
  cbn [Strings.mapBytes Strings.allBytes]. rewrite valid_lower, IH.
  reflexivity.
Qed.

Lemma canonical_ignores_case (k k' : string) :
  Strings.allBytes validHeaderFieldByte k = true ->
  sameLetters k k' = true ->
  CanonicalMIMEHeaderKey k = CanonicalMIMEHeaderKey k'.
Proof.
  intros Hv Hs. apply mapBytes_lower_eq in Hs. unfold CanonicalMIMEHeaderKey.
  assert (Hv' : Strings.allBytes validHeaderFieldByte k' = true).
  { rewrite <- allBytes_valid_lower, <- Hs, allBytes_valid_lower. exact Hv. }
  rewrite Hv, Hv'.
  rewrite <- (canonicalize_lower true k), <- (canonicalize_lower true k'), Hs.
  reflexivity.
Qed.

(** X24: The name of the verification header is matched without regard to the
    case of its letters: when the configured name is a header token, a
    request that carries a non-empty value under any spelling of that name
    passes the gate. *)
Theorem gate_name_ignores_case (f : string -> string) (env : Env)
  (name sent value : string) (backend : URL) (h : Header)
  (method host : string) (u : URL) :
  Strings.allBytes validHeaderFieldByte name = true ->
  sameLetters name sent = true ->
  value <> EmptyString ->
  handler f env (mkConfig name backend)
          (mkRequest method u (Set_ h sent value) host) =
  if isWebSocketRequest f (mkRequest method u (Set_ h sent value) host)
  then handleWebSocket env (mkRequest method u (Set_ h sent value) host) backend
  else (tt, [EServeHTTP (mkRequest method u (Set_ h sent value) host)]).
Proof.
  intros Hv Hs Hval. unfold handler. cbn [verificationHeader RHeader target].
  assert (Hget : Get (Set_ h sent value) name = value).
  { unfold Get, Set_. rewrite (canonical_ignores_case name sent Hv Hs).
    rewrite lookup_insert_eq. reflexivity. }
  rewrite Hget. apply String.eqb_neq in Hval. rewrite Hval, andb_false_r.
  reflexivity.
Qed.

Lemma gate_name_ignores_case_witness :
  handler idLower (envWith (backendOK [])) (mkConfig "x-gate-token" plainTarget)
          (mkRequest "GET" (mkURL "" "" "/" "")
                     (Set_ ∅ "X-GATE-Token" "anything") "gateway.example") =
  if isWebSocketRequest idLower
       (mkRequest "GET" (mkURL "" "" "/" "")
                  (Set_ ∅ "X-GATE-Token" "anything") "gateway.example")
  then handleWebSocket (envWith (backendOK []))
         (mkRequest "GET" (mkURL "" "" "/" "")
                    (Set_ ∅ "X-GATE-Token" "anything") "gateway.example")
         plainTarget
  else (tt, [EServeHTTP
               (mkRequest "GET" (mkURL "" "" "/" "")
                          (Set_ ∅ "X-GATE-Token" "anything")
                          "gateway.example")]).
Proof.
  apply (gate_name_ignores_case idLower (envWith (backendOK []))
           "x-gate-token" "X-GATE-Token" "anything" plainTarget ∅
           "GET" "gateway.example" (mkURL "" "" "/" "")).
  - reflexivity.
  - reflexivity.
  - discriminate.
Defined.

(** X25: On ASCII header values the detector does not look at the case of
    letters: two requests whose [Upgrade] values and whose [Connection]
    values agree up to case get the same answer. *)
Theorem detector_ignores_case (f : string -> string) (r r' : Request) :
  Strings.isASCII (Get (RHeader r) "Upgrade") = true ->
  Strings.isASCII (Get (RHeader r') "Upgrade") = true ->
  Strings.isASCII (Get (RHeader r) "Connection") = true ->
  Strings.isASCII (Get (RHeader r') "Connection") = true ->
  sameLetters (Get (RHeader r) "Upgrade") (Get (RHeader r') "Upgrade") = true ->
  sameLetters (Get (RHeader r) "Connection") (Get (RHeader r') "Connection")
  = true ->
  isWebSocketRequest f r = isWebSocketRequest f r'.
Proof.
  intros Hu Hu' Hc Hc' Su Sc. unfold isWebSocketRequest, Strings.ToLower.
  rewrite Hu, Hu', Hc, Hc'.
  apply mapBytes_lower_eq in Su, Sc. rewrite Su, Sc. reflexivity.
Qed.

Lemma detector_ignores_case_witness :
  isWebSocketRequest idLower upgradeReq =
  isWebSocketRequest idLower
    (mkRequest "GET" (mkURL "" "" "/chat" "")
       (headersOf [("Upgrade", "WEBSOCKET");
                   ("Connection", "Keep-Alive, UPGRADE")])
       "gateway.example").
Proof.
  apply (detector_ignores_case idLower upgradeReq
    (mkRequest "GET" (mkURL "" "" "/chat" "")
       (headersOf [("Upgrade", "WEBSOCKET");
                   ("Connection", "Keep-Alive, UPGRADE")])
       "gateway.example")); vm_compute; reflexivity.
Defined.

Example ignoring_case_words :
  equalsIgnoringCase idLower "WebSocket" "websocket" /\
  containsIgnoringCase idLower "keep-alive, Upgrade" "upgrade" /\
  equalIgnoringCase "websocket" "web-socket" = false /\
  sameLetter "k" "K" = true /\ sameLetter "@" "`" = false.
Proof.
  repeat split.
  exists "keep-alive, ", "Upgrade", EmptyString. split; reflexivity.
Qed.
